(** * mfe: Moodle File Extractor

    A shallow embedding of [mfe.go] (and of its older sibling [extract.go])
    together with the properties of the metadata-resolution and extraction
    core: the name sanitizer, the primary mapping builder, the folder
    resolver and the content materializer.

    Go strings are byte sequences: they are modelled as [string] (a list of
    8-bit [ascii]).  Go maps with string keys are modelled as [gmap string _].
    Everything that lives outside the repository (the XML decoder, [path],
    [path/filepath], [io/fs] and [os]) is an interface here, exactly as the
    program sees it. *)

From Stdlib Require Import Strings.String Strings.Ascii NArith.
From stdpp Require Import base strings list gmap fin_maps pretty.

#[local] Set Warnings "-clear-no-such-hyp".

Local Open Scope string_scope.
Local Open Scope list_scope.
Local Open Scope nat_scope.

(** ** Package [regexp], as far as [forbidden] needs it *)

Module Regexp.

(** One item of a bracketed character class. *)
Inductive ClassItem : Type :=
| Lit (c : ascii)
| Range (lo hi : ascii).

Definition itemMatches (i : ClassItem) (c : ascii) : bool :=
  match i with
  | Lit a => Ascii.eqb c a
  | Range lo hi =>
      (N_of_ascii lo <=? N_of_ascii c)%N && (N_of_ascii c <=? N_of_ascii hi)%N
  end.

Definition classMatches (cls : list ClassItem) (c : ascii) : bool :=
  existsb (fun i => itemMatches i c) cls.

(** [ReplaceAllString] for a pattern of the shape [[cls]+] and a replacement
    without dollar expansions.  Matching is leftmost and greedy, so every
    match is a maximal run of class characters; the scanner copies the bytes
    outside the matches and emits [repl] once when a run starts.  [inMatch]
    tells whether the previous byte belonged to the current match.

    Every character of the class used below is ASCII, and an ASCII byte is
    never part of a multi-byte UTF-8 sequence, so scanning bytes and scanning
    runes select the same positions. *)
Fixpoint replaceAllFrom (cls : list ClassItem) (repl : string)
    (inMatch : bool) (src : string) : string :=
  match src with
  | EmptyString => EmptyString
  | String c rest =>
      if classMatches cls c then
        if inMatch then replaceAllFrom cls repl true rest
        else repl +:+ replaceAllFrom cls repl true rest
      else String c (replaceAllFrom cls repl false rest)
  end.

Definition ReplaceAllString (cls : list ClassItem) (src repl : string) : string :=
  replaceAllFrom cls repl false src.

End Regexp.

(** [var forbidden = regexp.MustCompile(...)]: one or more characters of the
    bracket class that lists, in this order, less-than, greater-than, colon,
    double quote (byte 34), slash, backslash, bar, question mark, star and
    the range from byte 0x00 to byte 0x1F. *)
Definition forbidden : list Regexp.ClassItem :=
  [ Regexp.Lit "<"; Regexp.Lit ">"; Regexp.Lit ":"; Regexp.Lit "034";
    Regexp.Lit "/"; Regexp.Lit "\"; Regexp.Lit "|"; Regexp.Lit "?";
    Regexp.Lit "*"; Regexp.Range "000" "031" ]%char.

(** [func sanitizeFileName(fileName string) string] *)
Definition sanitizeFileName (fileName : string) : string :=
  Regexp.ReplaceAllString forbidden fileName "".

(** The sanitizer as the specification words it: the characters
    less-than, greater-than, colon, double quote, slash, backslash, bar,
    question mark, star and the C0 controls (code points 0x00 to 0x1F) are
    deleted, everything else is kept in order. *)
Definition specForbiddenChar (c : ascii) : Prop :=
  c ∈ ["<"; ">"; ":"; "034"; "/"; "\"; "|"; "?"; "*"]%char
  ∨ (N_of_ascii c <= 31)%N.

#[global] Instance specForbiddenChar_dec c : Decision (specForbiddenChar c).
Proof. unfold specForbiddenChar. apply _. Defined.

Definition specSanitize (s : string) : string :=
  string_of_list_ascii
    (filter (fun c => ¬ specForbiddenChar c) (list_ascii_of_string s)).

(** ** Data model *)

(** [type File struct]: one entry of files.xml.  [Folder] is not an XML
    field, the folder resolver fills it in. *)
Record File : Type := mkFile {
  ID : string;
  ContentHash : string;
  Filename : string;
  Folder : string;
}.

#[global] Instance File_eq_dec : EqDecision File.
Proof. solve_decision. Defined.

(** [file.Filename = v] and [file.Folder = v] on a struct value. *)
Definition withFilename (file : File) (v : string) : File :=
  mkFile (ID file) (ContentHash file) v (Folder file).

Definition withFolder (file : File) (v : string) : File :=
  mkFile (ID file) (ContentHash file) (Filename file) v.

(** Go's [error], by its message. *)
Definition error : Type := string.

Inductive result (A : Type) : Type :=
| Ok (a : A)
| Err (e : error).
Arguments Ok {A} a.
Arguments Err {A} e.

(** What a run does to the outside world, in order: the lines it prints
    ([fmt.Printf] with its format and its arguments) and the calls it makes
    on the source store and on the operating system. *)
Inductive Event : Type :=
| Printf (format : string) (args : list string)
| SourceOpen (name : string)
| SourceReadDir (name : string)
| OsStat (name : string)
| OsMkdirAll (name : string)
| OsCreate (name : string)
| IoCopy (dst : string).

#[global] Instance Event_eq_dec : EqDecision Event.
Proof. solve_decision. Defined.

(** [os.Stat] as the program looks at it: [err == nil],
    [os.IsNotExist(err)], or any other error. *)
Inductive StatResult : Type :=
| StatOk
| StatNotExist
| StatErr (e : error).

#[global] Instance StatResult_eq_dec : EqDecision StatResult.
Proof. solve_decision. Defined.

(** [s[:n]]: a run-time panic ([None]) when [n] exceeds the length. *)
Definition sliceTo (s : string) (n : nat) : option string :=
  if decide (n ≤ String.length s) then Some (substring 0 n s) else None.

(** [for _, x := range l { body }] over a state [S], collecting the events
    of every iteration. *)
Fixpoint forEach {S A : Type} (body : S → A → S * list Event)
    (l : list A) (s : S) : S * list Event :=
  match l with
  | [] => (s, [])
  | x :: rest =>
      let '(s1, ev1) := body s x in
      let '(s2, ev2) := forEach body rest s1 in
      (s2, ev1 ++ ev2)
  end.

Section Program.

(** [fs.File]: an open file of the source store. *)
Context {Handle : Type}.

(** [fs.FS] together with [fs.ReadDir]; of a directory entry only [Name()]
    is used.  The two adapters ([os.DirFS] and the tar file system) are two
    values of this type. *)
Record FS : Type := mkFS {
  Open : string → result Handle;
  ReadDir : string → result (list string);
}.

(** The parts of the run-time environment that are not the file systems:
    the [--debug] flag, [parseXMLFile] at the three shapes it is used with
    (the file list of files.xml, the nested [folder>name] of folder.xml and
    the [fileref>file>id] list of inforef.xml), and the path functions. *)
Class Runtime : Type := mkRuntime {
  debug : bool;
  parseFilesXML : Handle → result (list File);
  parseFolderXML : Handle → result string;
  parseInforefXML : Handle → result (list string);
  path_Join : list string → string;
  filepath_Join : list string → string;
  filepath_Dir : string → string;
}.

(** Package [os] over a state [World] of the destination file system.  The
    file that [os.Create] returns is known by its path. *)
Class OS (World : Type) : Type := mkOS {
  os_Stat : World → string → StatResult;
  os_MkdirAll : World → string → World * option error;
  os_Create : World → string → World * option error;
  io_Copy : World → string → Handle → World * option error;
}.

Context {RT : Runtime}.

(** [func logDebug(format string, args ...interface{})]: prints only when
    the debug flag is set.  [extract.go] has no such function and calls
    [fmt.Printf] at the same places: it behaves like [debug := true] in
    [buildFileMapping] and [processActivitiesFolder]. *)
Definition logDebug (format : string) (args : list string) : list Event :=
  if debug then [Printf format args] else [].

(** *** Primary mapping builder *)

(** The body of the loop of [buildFileMapping]. *)
Definition addFile (fileMapping : gmap string File) (file : File)
    : gmap string File * list Event :=
  let file := withFilename file (sanitizeFileName (Filename file)) in
  if String.eqb (ID file) "" || String.eqb (ContentHash file) ""
     || String.eqb (Filename file) "."
  then (fileMapping, [])
  else (<[ID file := file]> fileMapping,
        logDebug "Added file to mapping: ID=%s, ContentHash=%s, Filename=%s\n"
          [ID file; ContentHash file; Filename file]).

(** [func buildFileMapping(source fs.FS, filesXMLPath string)
    (map[string]File, error)] *)
Definition buildFileMapping (source : FS) (filesXMLPath : string)
    : result (gmap string File) * list Event :=
  match Open source filesXMLPath with
  | Err err => (Err ("error reading files.xml: " +:+ err), [SourceOpen filesXMLPath])
  | Ok file =>
      match parseFilesXML file with
      | Err err => (Err ("error parsing files.xml: " +:+ err), [SourceOpen filesXMLPath])
      | Ok files =>
          let '(fileMapping, ev) := forEach addFile files ∅ in
          (Ok fileMapping, SourceOpen filesXMLPath :: ev)
      end
  end.

(** *** Folder resolver *)

(** The body of the inner loop of [processActivitiesFolder], for one
    reference of inforef.xml. *)
Definition assignFolder (folderName : string) (fileMapping : gmap string File)
    (fileref : string) : gmap string File * list Event :=
  match fileMapping !! fileref with
  | Some file =>
      (<[fileref := withFolder file folderName]> fileMapping,
       logDebug "Assigned folder to file: ID=%s, Folder=%s\n" [fileref; folderName])
  | None =>
      (fileMapping,
       logDebug "Warning: File ID %s not found in file_mapping\n" [fileref])
  end.

(** The body of the outer loop, for one entry of the activities folder. *)
Definition processDir (source : FS) (activitiesFolder : string)
    (fileMapping : gmap string File) (dir : string)
    : gmap string File * list Event :=
  if negb (String.prefix "folder_" dir) then (fileMapping, [])
  else
    let folderPath := path_Join [activitiesFolder; dir] in
    let folderXMLPath := path_Join [folderPath; "folder.xml"] in
    match Open source folderXMLPath with
    | Err _ =>
        (fileMapping,
         [SourceOpen folderXMLPath;
          Printf "Warning: folder.xml not found in %s\n" [folderPath]])
    | Ok folderFile =>
        match parseFolderXML folderFile with
        | Err err =>
            (fileMapping,
             [SourceOpen folderXMLPath;
              Printf "Error parsing folder.xml: %v\n" [err]])
        | Ok folderDataName =>
            let folderName := sanitizeFileName folderDataName in
            let inforefXMLPath := path_Join [folderPath; "inforef.xml"] in
            match Open source inforefXMLPath with
            | Err _ =>
                (fileMapping,
                 [SourceOpen folderXMLPath; SourceOpen inforefXMLPath;
                  Printf "Warning: inforef.xml not found in %s\n" [folderPath]])
            | Ok inforefFile =>
                match parseInforefXML inforefFile with
                | Err err =>
                    (fileMapping,
                     [SourceOpen folderXMLPath; SourceOpen inforefXMLPath;
                      Printf "Error parsing inforef.xml: %v\n" [err]])
                | Ok inforefData =>
                    let '(fileMapping', ev) :=
                      forEach (assignFolder folderName) inforefData fileMapping in
                    (fileMapping',
                     SourceOpen folderXMLPath :: SourceOpen inforefXMLPath :: ev)
                end
            end
        end
    end.

(** [func processActivitiesFolder(source fs.FS, activitiesFolder string,
    fileMapping map[string]File) error].  The map is updated in place: the
    first component is the map the caller holds afterwards. *)
Definition processActivitiesFolder (source : FS) (activitiesFolder : string)
    (fileMapping : gmap string File)
    : gmap string File * option error * list Event :=
  match ReadDir source activitiesFolder with
  | Err err =>
      (fileMapping, Some ("error reading activities folder: " +:+ err),
       [SourceReadDir activitiesFolder])
  | Ok dirs =>
      let '(fileMapping', ev) :=
        forEach (processDir source activitiesFolder) dirs fileMapping in
      (fileMapping', None, SourceReadDir activitiesFolder :: ev)
  end.

(** *** Content materializer *)

Context {World : Type} {OSI : OS World}.

(** The block of [copyFiles] that makes sure the destination directory
    exists: the new state, whether the iteration goes on, and the events. *)
Definition ensureDir (w : World) (destinationDir : string)
    : World * bool * list Event :=
  match os_Stat w destinationDir with
  | StatNotExist =>
      match os_MkdirAll w destinationDir with
      | (w1, Some err) =>
          (w1, false,
           [OsStat destinationDir; OsMkdirAll destinationDir;
            Printf "Error creating directory %s: %v\n" [destinationDir; err]])
      | (w1, None) =>
          (w1, true,
           [OsStat destinationDir; OsMkdirAll destinationDir;
            Printf "Create: %s\n" [destinationDir]])
      end
  | StatErr err =>
      (w, false,
       [OsStat destinationDir;
        Printf "Error checking directory %s: %v\n" [destinationDir; err]])
  | StatOk => (w, true, [OsStat destinationDir])
  end.

(** [destinationPath] of a record. *)
Definition destinationPath (destinationFolder : string) (file : File) : string :=
  if String.eqb (Folder file) "" then
    filepath_Join [destinationFolder; Filename file]
  else
    filepath_Join [destinationFolder; Folder file; Filename file].

(** The body of the loop of [copyFiles] for one record: [None] is a run-time
    panic; otherwise the new state and whether [copiedFiles] is incremented. *)
Definition copyFile (source : FS) (destinationFolder : string)
    (w : World) (file : File) : option (World * bool) * list Event :=
  if decide (String.length (ContentHash file) < 2) then
    (Some (w, false),
     [Printf "Warning: Invalid ContentHash for file ID %s\n" [ID file]])
  else
    match sliceTo (ContentHash file) 2 with
    | None => (None, [])
    | Some hashPrefix =>
        let sourceFilePath := path_Join ["files"; hashPrefix; ContentHash file] in
        match Open source sourceFilePath with
        | Err _ =>
            (Some (w, false),
             [SourceOpen sourceFilePath;
              Printf "Warning: File %s not found in source folder\n" [sourceFilePath]])
        | Ok sourceFile =>
            let destinationPath := destinationPath destinationFolder file in
            let before := [SourceOpen sourceFilePath; OsStat destinationPath] in
            match os_Stat w destinationPath with
            | StatOk =>
                (Some (w, false),
                 before ++ [Printf "Skip (already exists): %s\n" [destinationPath]])
            | StatErr err =>
                (Some (w, false),
                 before ++ [Printf "Error checking file %s: %v\n" [destinationPath; err]])
            | StatNotExist =>
                let destinationDir := filepath_Dir destinationPath in
                match ensureDir w destinationDir with
                | (w1, false, ev1) => (Some (w1, false), before ++ ev1)
                | (w1, true, ev1) =>
                    match os_Create w1 destinationPath with
                    | (w2, Some err) =>
                        (Some (w2, false),
                         before ++ ev1 ++
                         [OsCreate destinationPath;
                          Printf "Error creating file %s: %v\n" [destinationPath; err]])
                    | (w2, None) =>
                        match io_Copy w2 destinationPath sourceFile with
                        | (w3, Some err) =>
                            (Some (w3, false),
                             before ++ ev1 ++
                             [OsCreate destinationPath; IoCopy destinationPath;
                              Printf "Error copying file %s to %s: %v\n"
                                [sourceFilePath; destinationPath; err]])
                        | (w3, None) =>
                            (Some (w3, true),
                             before ++ ev1 ++
                             [OsCreate destinationPath; IoCopy destinationPath;
                              Printf "Create: %s\n" [destinationPath]])
                        end
                    end
                end
            end
        end
    end.

(** The loop of [copyFiles] over the records in the order [files] in which
    [range fileMapping] yields them, from the state [w] and the counter
    [copiedFiles]. *)
Fixpoint copyLoop (source : FS) (destinationFolder : string)
    (files : list File) (w : World) (copiedFiles : nat)
    : option (World * nat) * list Event :=
  match files with
  | [] => (Some (w, copiedFiles), [])
  | file :: rest =>
      match copyFile source destinationFolder w file with
      | (None, ev) => (None, ev)
      | (Some (w1, copied), ev) =>
          let '(r, ev') :=
            copyLoop source destinationFolder rest w1
              (if copied then S copiedFiles else copiedFiles) in
          (r, ev ++ ev')
      end
  end.

(** Go leaves the iteration order of a map unspecified: [order] is one order
    in which [range fileMapping] may yield the records. *)
Definition rangeOrder (fileMapping : gmap string File) (order : list File) : Prop :=
  order ≡ₚ (map_to_list fileMapping).*2.

(** [func copyFiles(source fs.FS, destinationFolder string,
    fileMapping map[string]File) int], for one iteration order. *)
Definition copyFiles (source : FS) (destinationFolder : string)
    (order : list File) (w : World) : option (World * nat) * list Event :=
  copyLoop source destinationFolder order w 0.

End Program.

Arguments FS : clear implicits.
Arguments Runtime : clear implicits.
Arguments OS : clear implicits.

(** ** Vocabulary of the properties *)

(** The entry as [buildFileMapping] stores it, and the guard it passes. *)
Definition sanitizedEntry (file : File) : File :=
  withFilename file (sanitizeFileName (Filename file)).

Definition keptEntry (file : File) : Prop :=
  ID file ≠ "" ∧ ContentHash file ≠ "" ∧ Filename file ≠ ".".

#[global] Instance keptEntry_dec file : Decision (keptEntry file).
Proof. unfold keptEntry. apply _. Defined.

(** The mapping the specification describes for a decoded document: under
    every id, the last kept entry that carries it. *)
Definition specLookup (files : list File) (id : string) : option File :=
  last (filter (fun file => ID file = id)
          (filter keptEntry (sanitizedEntry <$> files))).

(** A relation holds between every two elements at different positions. *)
Fixpoint pairwise {A : Type} (R : A → A → Prop) (l : list A) : Prop :=
  match l with
  | [] => True
  | x :: rest => Forall (R x) rest ∧ pairwise R rest
  end.

Definition disjointLists (l1 l2 : list string) : Prop :=
  ∀ x, x ∈ l1 → x ∈ l2 → False.

#[global] Instance disjointLists_dec l1 l2 : Decision (disjointLists l1 l2).
Proof.
  refine (cast_if (decide (Forall (fun x => x ∉ l2) l1)));
    unfold disjointLists; rewrite Forall_forall in *; naive_solver.
Defined.

(** The fields that the resolver must not touch. *)
Definition sameButFolder (f f' : File) : Prop :=
  ID f' = ID f ∧ ContentHash f' = ContentHash f ∧ Filename f' = Filename f.

Definition framed (m m' : gmap string File) : Prop :=
  ∀ id, option_Forall2 sameButFolder (m !! id) (m' !! id).

(** The lines by which [copyFiles] reports that it could not check or
    create a destination directory, or could not create a destination file. *)
Definition creationErrorFormats : list string :=
  [ "Error creating directory %s: %v\n";
    "Error checking directory %s: %v\n";
    "Error creating file %s: %v\n" ].

Definition reportsCreationError (e : Event) : Prop :=
  match e with
  | Printf format _ => format ∈ creationErrorFormats
  | _ => False
  end.

#[global] Instance reportsCreationError_dec e : Decision (reportsCreationError e).
Proof. destruct e; simpl; apply _. Defined.

(** Calls that change the destination file system. *)
Definition writesDestination (e : Event) : Prop :=
  match e with
  | OsMkdirAll _ | OsCreate _ | IoCopy _ => True
  | _ => False
  end.

#[global] Instance writesDestination_dec e : Decision (writesDestination e).
Proof. destruct e; simpl; apply _. Defined.

Definition isOsCreate (e : Event) : Prop :=
  match e with
  | OsCreate _ => True
  | _ => False
  end.

#[global] Instance isOsCreate_dec e : Decision (isOsCreate e).
Proof. destruct e; simpl; apply _. Defined.

Section Vocabulary.

Context {Handle : Type} {RT : Runtime Handle}.

(** The bundle behind a directory entry: the sanitized folder name and the
    referenced ids, when the entry is a folder bundle whose two documents
    open and decode. *)
Definition bundleOf (source : FS Handle) (activitiesFolder dir : string)
    : option (string * list string) :=
  if negb (String.prefix "folder_" dir) then None
  else
    let folderPath := path_Join [activitiesFolder; dir] in
    match Open source (path_Join [folderPath; "folder.xml"]) with
    | Err _ => None
    | Ok folderFile =>
        match parseFolderXML folderFile with
        | Err _ => None
        | Ok name =>
            match Open source (path_Join [folderPath; "inforef.xml"]) with
            | Err _ => None
            | Ok inforefFile =>
                match parseInforefXML inforefFile with
                | Err _ => None
                | Ok ids => Some (sanitizeFileName name, ids)
                end
            end
        end
    end.

Definition bundleRefs (source : FS Handle) (activitiesFolder dir : string)
    : list string :=
  match bundleOf source activitiesFolder dir with
  | Some (_, ids) => ids
  | None => []
  end.

(** What the idempotence of [copyFiles] needs from the operating system:
    no call of the program removes anything (a path that [os.Stat] does not
    report absent stays so), and a file that [os.Create] created is there. *)
Class OSLaws (World : Type) {OSI : OS Handle World} : Prop := mkOSLaws {
  mkdirAll_keeps : ∀ w d p,
    os_Stat w p ≠ StatNotExist → os_Stat (os_MkdirAll w d).1 p ≠ StatNotExist;
  create_keeps : ∀ w q p,
    os_Stat w p ≠ StatNotExist → os_Stat (os_Create w q).1 p ≠ StatNotExist;
  copy_keeps : ∀ w q h p,
    os_Stat w p ≠ StatNotExist → os_Stat (io_Copy w q h).1 p ≠ StatNotExist;
  create_present : ∀ w p w',
    os_Create w p = (w', None) → os_Stat w' p ≠ StatNotExist;
}.

End Vocabulary.

Section Settled.

Context {Handle : Type} {RT : Runtime Handle} {World : Type} {OSI : OS Handle World}.

(** [sourceFilePath] of a record whose hash has at least two bytes. *)
Definition sourceFilePath (file : File) : string :=
  path_Join ["files"; substring 0 2 (ContentHash file); ContentHash file].

(** Nothing is left to do for a record: its hash is too short, its payload
    does not open, or [os.Stat] does not report its destination absent. *)
Definition settled (source : FS Handle) (destinationFolder : string)
    (w : World) (file : File) : Prop :=
  String.length (ContentHash file) < 2
  ∨ (∃ err, Open source (sourceFilePath file) = Err err)
  ∨ os_Stat w (destinationPath destinationFolder file) ≠ StatNotExist.

End Settled.

(** ** The rest of the program: source selection and [main] *)

(** [strings.HasSuffix(s, suffix)] *)
Definition hasSuffix (s suffix : string) : bool :=
  bool_decide (String.length suffix ≤ String.length s)
  && String.eqb
       (substring (String.length s - String.length suffix)
          (String.length suffix) s)
       suffix.

(** [errors.Join]: nil when every operand is nil, otherwise the messages of
    the non-nil operands, one per line. *)
Definition errors_Join (errs : list (option error)) : option error :=
  match omap id errs with
  | [] => None
  | msgs => Some (String.concat (String "010" EmptyString) msgs)
  end.

(** The events of the whole program: those of the core, and the calls that
    select, open and close the source, the usage lines and [os.Exit]. *)
Inductive HostEvent : Type :=
| Core (e : Event)
| Println (line : string)
| PrintDefaults
| HostStat (name : string)
| HostOpen (name : string)
| GzipNewReader (name : string)
| TarfsNew (name : string)
| GzClose (name : string)
| FileClose (name : string)
| Exit (code : nat).

#[global] Instance HostEvent_eq_dec : EqDecision HostEvent.
Proof. solve_decision. Defined.

(** [type closefn func() error], by what a call of it does: the events it
    causes and the error it returns. *)
Definition closefn : Type := list HostEvent * option error.

(** Calls that release a resource of the source. *)
Definition isClose (e : HostEvent) : Prop :=
  match e with
  | GzClose _ | FileClose _ => True
  | _ => False
  end.

#[global] Instance isClose_dec e : Decision (isClose e).
Proof. destruct e; simpl; apply _. Defined.

(** Calls of the core that change the destination file system. *)
Definition writesHost (e : HostEvent) : Prop :=
  match e with
  | Core e' => writesDestination e'
  | _ => False
  end.

#[global] Instance writesHost_dec e : Decision (writesHost e).
Proof. destruct e; simpl; apply _. Defined.

Section Host.

Context {Handle : Type} {RT : Runtime Handle}.

(** What [getSource] and [getArguments] use of the host: the linker-set
    [version], [os.Stat] of the source path (whether it is a directory),
    [os.Open], [gzip.NewReader], [tarfs.New], the two [Close] methods and
    [os.DirFS]. *)
Class Host (OsFile GzReader : Type) : Type := mkHost {
  version : string;
  host_Stat : string → result bool;
  host_Open : string → result OsFile;
  gzip_NewReader : OsFile → result GzReader;
  tarfs_New : GzReader → result (FS Handle);
  gz_Close : GzReader → option error;
  file_Close : OsFile → option error;
  os_DirFS : string → FS Handle;
}.

Context {OsFile GzReader : Type} {HOST : Host OsFile GzReader}.

(** The body of [pflag.Usage]. *)
Definition usage : list HostEvent :=
  [ Println "Usage: mfe <source> <destination_folder>";
    Core (Printf
      "Moodle File Extractor (%s): extract all files from a .mbz Moodle backup file.\n"
      [version]);
    Println "Options:";
    Println "  <source>             Path to .mbz file or extracted folder";
    Println "  <destination_folder> Path to destination folder";
    PrintDefaults ].

(** [func getArguments() (string, string)], from the positional arguments
    that [pflag.Args()] returns: [None] is [os.Exit(1)].  The call of
    [pflag.Parse()] that precedes them is in [mainOnCommandLine]. *)
Definition getArguments (args : list string)
    : option (string * string) * list HostEvent :=
  if decide (length args ≠ 2) then (None, usage ++ [Exit 1])
  else (Some (default "" (args !! 0), default "" (args !! 1)), []).

(** [func targzFS(zipPath string) (fs.FS, closefn, error)] *)
Definition targzFS (zipPath : string)
    : result (FS Handle * closefn) * list HostEvent :=
  match host_Open zipPath with
  | Err err => (Err err, [HostOpen zipPath])
  | Ok file =>
      match gzip_NewReader file with
      | Err err =>
          (Err err, [HostOpen zipPath; GzipNewReader zipPath; FileClose zipPath])
      | Ok gzReader =>
          match tarfs_New gzReader with
          | Err err =>
              (Err err,
               [HostOpen zipPath; GzipNewReader zipPath; TarfsNew zipPath;
                GzClose zipPath; FileClose zipPath])
          | Ok tarFs =>
              let close : closefn :=
                ([GzClose zipPath; FileClose zipPath],
                 errors_Join [gz_Close gzReader; file_Close file]) in
              (Ok (tarFs, close),
               [HostOpen zipPath; GzipNewReader zipPath; TarfsNew zipPath])
          end
      end
  end.

(** [func dirFS(dirPath string) (fs.FS, closefn, error)]: the close
    function is nil and the error is nil. *)
Definition dirFS (dirPath : string) : FS Handle * option closefn :=
  (os_DirFS dirPath, None).

(** [func getSource(sourcePath string) (fs.FS, closefn, error)].  In the
    last error [err] is nil, which [fmt] renders after the colon as a bad
    operand of its verb. *)
Definition getSource (sourcePath : string)
    : result (FS Handle * option closefn) * list HostEvent :=
  match host_Stat sourcePath with
  | Err err =>
      (Err ("error checking source path: " +:+ err), [HostStat sourcePath])
  | Ok isDir =>
      if isDir then (Ok (dirFS sourcePath), [HostStat sourcePath])
      else if hasSuffix sourcePath ".mbz" then
        match targzFS sourcePath with
        | (Ok (tarFs, close), ev) =>
            (Ok (tarFs, Some close), HostStat sourcePath :: ev)
        | (Err err, ev) => (Err err, HostStat sourcePath :: ev)
        end
      else
        (Err "only folder and .mbz file are supported: %!w(<nil>)",
         [HostStat sourcePath])
  end.

Context {World : Type} {OSI : OS Handle World}.

(** The deferred function of [main]: nothing when [close] is nil. *)
Definition deferredClose (close : option closefn) : list HostEvent :=
  match close with
  | None => []
  | Some (ev, Some err) => ev ++ [Core (Printf "Error closing source: %v\n" [err])]
  | Some (ev, None) => ev
  end.

(** The last lines of [main]. *)
Definition summary (n : nat) (destinationFolder : string) : HostEvent :=
  if decide (n = 0) then Core (Printf "No files copied.\n" [])
  else Core (Printf "Copied %d files to %s\n" [pretty n; destinationFolder]).

(** [func main()], from the positional arguments and the state of the
    destination, with [range] the order in which the map is iterated: the
    exit status, the state of the destination and the events.  [os.Exit]
    ends the process at once, so deferred calls do not run after it; they
    run when [main] returns and when it panics (status 2). *)
Definition main (args : list string)
    (range : gmap string File → list File) (w : World)
    : nat * World * list HostEvent :=
  match getArguments args with
  | (None, ev0) => (1, w, ev0)
  | (Some (sourcePath, destinationFolder), ev0) =>
      match getSource sourcePath with
      | (Err err, ev1) =>
          (1, w,
           ev0 ++ ev1 ++ [Core (Printf "Error getting source: %v\n" [err]); Exit 1])
      | (Ok (source, close), ev1) =>
          match buildFileMapping source "files.xml" with
          | (Err err, ev2) =>
              (1, w,
               ev0 ++ ev1 ++ (Core <$> ev2)
               ++ [Core (Printf "%v\n" [err]); Exit 1])
          | (Ok fileMapping, ev2) =>
              match processActivitiesFolder source "activities" fileMapping with
              | (_, Some err, ev3) =>
                  (1, w,
                   ev0 ++ ev1 ++ (Core <$> ev2) ++ (Core <$> ev3)
                   ++ [Core (Printf "%v\n" [err]); Exit 1])
              | (fileMapping', None, ev3) =>
                  match copyFiles source destinationFolder (range fileMapping') w with
                  | (None, ev4) =>
                      (2, w,
                       ev0 ++ ev1 ++ (Core <$> ev2) ++ (Core <$> ev3)
                       ++ (Core <$> ev4) ++ deferredClose close)
                  | (Some (w', n), ev4) =>
                      (0, w',
                       ev0 ++ ev1 ++ (Core <$> ev2) ++ (Core <$> ev3)
                       ++ (Core <$> ev4)
                       ++ [summary n destinationFolder] ++ deferredClose close)
                  end
              end
          end
      end
  end.

End Host.

Arguments Host : clear implicits.

(** ** Vocabulary of the further properties *)

Section MoreVocabulary.

Context {Handle : Type} {RT : Runtime Handle}.

(** The bundles of a listing that open and decode, in the order of the
    listing. *)
Definition goodBundles (source : FS Handle) (activitiesFolder : string)
    (dirs : list string) : list (string * list string) :=
  omap (bundleOf source activitiesFolder) dirs.

(** The folder name of the last bundle that references an id. *)
Definition lastFolder (bundles : list (string * list string)) (id : string)
    : option string :=
  fst <$> last (filter (fun b => id ∈ b.2) bundles).

(** A record whose payload can be read: the hash has its two-byte prefix
    and the store opens the payload. *)
Definition usable (source : FS Handle) (file : File) : Prop :=
  2 ≤ String.length (ContentHash file)
  ∧ match Open source (sourceFilePath file) with
    | Ok _ => True
    | Err _ => False
    end.

#[global] Instance usable_dec source file : Decision (usable source file).
Proof. unfold usable. destruct (Open source _); apply _. Defined.

(** The line that [buildFileMapping] logs for a stored record. *)
Definition addedLine (file : File) : Event :=
  Printf "Added file to mapping: ID=%s, ContentHash=%s, Filename=%s\n"
    [ID file; ContentHash file; Filename file].

End MoreVocabulary.

(** ** An in-memory environment, to run the program on examples *)

Module Mem.

(** What an open file of the store holds: a decoded document or a payload. *)
Inductive Doc : Type :=
| FilesXML (files : list File)
| FolderXML (name : string)
| InforefXML (ids : list string)
| Payload (bytes : string).

(** Join of clean, non-empty elements: they are separated by a slash. *)
Definition join (elem : list string) : string :=
  String.concat "/" (filter (fun e => e ≠ "") elem).

(** The path up to its last slash: [None] when it has no slash. *)
Fixpoint beforeLastSlash (p : string) : option string :=
  match p with
  | EmptyString => None
  | String c rest =>
      match beforeLastSlash rest with
      | Some d => Some (String c d)
      | None => if Ascii.eqb c "/" then Some EmptyString else None
      end
  end.

Definition dir (p : string) : string :=
  match beforeLastSlash p with
  | None => "."
  | Some EmptyString => "/"
  | Some d => d
  end.

Definition runtime (debug : bool) : Runtime Doc :=
  {| debug := debug;
     parseFilesXML := fun h =>
       match h with FilesXML l => Ok l | _ => Err "not a files document" end;
     parseFolderXML := fun h =>
       match h with FolderXML n => Ok n | _ => Err "not a folder document" end;
     parseInforefXML := fun h =>
       match h with InforefXML l => Ok l | _ => Err "not an inforef document" end;
     path_Join := join;
     filepath_Join := join;
     filepath_Dir := dir |}.

(** A store given by its files and by the listing of its directories. *)
Definition store (files : list (string * Doc)) (dirs : list (string * list string))
    : FS Doc :=
  {| Open := fun name =>
       match (list_to_map files : gmap string Doc) !! name with
       | Some d => Ok d
       | None => Err "file does not exist"
       end;
     ReadDir := fun name =>
       match (list_to_map dirs : gmap string (list string)) !! name with
       | Some l => Ok l
       | None => Err "file does not exist"
       end |}.

(** The destination: every path that exists, with [None] for a directory
    and the content for a file. *)
Abbreviation World := (gmap string (option Doc)).

#[global] Instance os : OS Doc World :=
  {| os_Stat := fun w p =>
       match w !! p with Some _ => StatOk | None => StatNotExist end;
     os_MkdirAll := fun w d =>
       match w !! d with
       | Some (Some _) => (w, Some "not a directory")
       | _ => (<[d := None]> w, None)
       end;
     os_Create := fun w p =>
       match w !! p with
       | Some None => (w, Some "is a directory")
       | _ => (<[p := Some (Payload "")]> w, None)
       end;
     io_Copy := fun w p h => (<[p := Some h]> w, None) |}.

(** The archive of the scenarios: one file entry, one folder bundle. *)
Definition hash1 : string := "da39a3ee5e6b4b0d3255bfef95601890afd80709".

Definition archive : FS Doc :=
  store
    [ ("files.xml", FilesXML [mkFile "1" hash1 "a/b.txt" ""]);
      ("activities/folder_5/folder.xml", FolderXML "My:Folder");
      ("activities/folder_5/inforef.xml", InforefXML ["1"; "2"]);
      ("files/da/" +:+ hash1, Payload "payload of 1") ]
    [ ("activities", ["folder_5"; "quiz_7"]) ].

Definition record1 : File := mkFile "1" hash1 "ab.txt" "MyFolder".

(** The destination after record 1 was copied under [/out], and the events
    of that run. *)
Definition afterFirstRun : World :=
  {[ "/out/MyFolder" := None;
     "/out/MyFolder/ab.txt" := Some (Payload "payload of 1") ]}.

Definition firstRunEvents : list Event :=
  [ SourceOpen ("files/da/" +:+ hash1);
    OsStat "/out/MyFolder/ab.txt"; OsStat "/out/MyFolder";
    OsMkdirAll "/out/MyFolder"; Printf "Create: %s\n" ["/out/MyFolder"];
    OsCreate "/out/MyFolder/ab.txt"; IoCopy "/out/MyFolder/ab.txt";
    Printf "Create: %s\n" ["/out/MyFolder/ab.txt"] ].

(** Two bundles that reference different records, listed in a given order. *)
Definition twoBundles (listing : list string) : FS Doc :=
  store
    [ ("activities/folder_5/folder.xml", FolderXML "A");
      ("activities/folder_5/inforef.xml", InforefXML ["1"]);
      ("activities/folder_6/folder.xml", FolderXML "B");
      ("activities/folder_6/inforef.xml", InforefXML ["2"]) ]
    [ ("activities", listing) ].

Definition twoRecords : gmap string File :=
  {[ "1" := mkFile "1" "aa11" "x.txt" ""; "2" := mkFile "2" "bb22" "y.txt" "" ]}.

End Mem.

(** ** An in-memory host, to run [main] on examples *)

Module MemHost.

(** What a path of the host is. *)
Inductive Node : Type :=
| Directory (content : FS Mem.Doc)
| Archive (content : FS Mem.Doc)
| BadTar
| NotGzip.

Definition host (nodes : list (string * Node)) : Host Mem.Doc Node Node :=
  {| version := "dev";
     host_Stat := fun p =>
       match (list_to_map nodes : gmap string Node) !! p with
       | Some (Directory _) => Ok true
       | Some _ => Ok false
       | None => Err "no such file or directory"
       end;
     host_Open := fun p =>
       match (list_to_map nodes : gmap string Node) !! p with
       | Some n => Ok n
       | None => Err "no such file or directory"
       end;
     gzip_NewReader := fun n =>
       match n with
       | Archive _ | BadTar => Ok n
       | _ => Err "gzip: invalid header"
       end;
     tarfs_New := fun n =>
       match n with
       | Archive c => Ok c
       | _ => Err "unexpected EOF"
       end;
     gz_Close := fun _ => None;
     file_Close := fun _ => None;
     os_DirFS := fun p =>
       match (list_to_map nodes : gmap string Node) !! p with
       | Some (Directory c) => c
       | _ => Mem.store [] []
       end |}.

(** A host with the archive of the scenarios, the same content extracted,
    an archive without files.xml and two files that are no archives. *)
Definition nodes : list (string * Node) :=
  [ ("backup.mbz", Archive Mem.archive);
    ("extracted", Directory Mem.archive);
    ("empty.mbz", Archive (Mem.store [] []));
    ("broken.mbz", BadTar);
    ("text.mbz", NotGzip);
    ("notes.txt", NotGzip) ].

#[global] Instance sample : Host Mem.Doc Node Node := host nodes.

(** Two bundles that reference the same record. *)
Definition colliding : FS Mem.Doc :=
  Mem.store
    [ ("activities/folder_5/folder.xml", Mem.FolderXML "A");
      ("activities/folder_5/inforef.xml", Mem.InforefXML ["1"]);
      ("activities/folder_6/folder.xml", Mem.FolderXML "B/C");
      ("activities/folder_6/inforef.xml", Mem.InforefXML ["1"]) ]
    [ ("activities", ["folder_5"; "folder_6"]) ].

(** The iteration order used in the examples. *)
Definition range (m : gmap string File) : list File := (map_to_list m).*2.

End MemHost.

(** ** The command line *)

Section CommandLine.

Context {Handle : Type} {RT : Runtime Handle}
  {OsFile GzReader : Type} {HOST : Host Handle OsFile GzReader}
  {World : Type} {OSI : OS Handle World}.

(** [pflag.Parse()] on the arguments of the process, the first thing that
    [getArguments] does.  The flag set is the default one, which on an
    unknown flag or a request for help ends the process by itself: [inl] is
    the status it exits with, [inr] the positional arguments that
    [pflag.Args()] returns afterwards.  The value of the debug flag after
    parsing is [debug]. *)
Class Pflag : Type := mkPflag {
  pflag_Parse : list string → nat + list string;
}.

Context {PFLAG : Pflag}.


End CommandLine.

(** ** An operating system with passing failures *)

Module Flaky.

(** The in-memory destination together with the paths on which the next
    [os.Create] fails; such a failure happens once, then the path works. *)
Abbreviation World := (gmap string (option Mem.Doc) * list string)%type.

#[global] Instance os : OS Mem.Doc World :=
  {| os_Stat := fun w p => os_Stat (OS := Mem.os) w.1 p;
     os_MkdirAll := fun w d =>
       ((os_MkdirAll (OS := Mem.os) w.1 d).1, w.2,
        (os_MkdirAll (OS := Mem.os) w.1 d).2);
     os_Create := fun w p =>
       if decide (p ∈ w.2) then
         ((w.1, filter (fun q => q ≠ p) w.2), Some "permission denied")
       else
         ((os_Create (OS := Mem.os) w.1 p).1, w.2,
          (os_Create (OS := Mem.os) w.1 p).2);
     io_Copy := fun w p h =>
       ((io_Copy (OS := Mem.os) w.1 p h).1, w.2,
        (io_Copy (OS := Mem.os) w.1 p h).2) |}.

(** A store with the payloads of [Mem.twoRecords]. *)
Definition payloads : FS Mem.Doc :=
  Mem.store
    [ ("files/aa/aa11", Mem.Payload "payload of 1");
      ("files/bb/bb22", Mem.Payload "payload of 2") ]
    [].

Definition order : list File :=
  [ mkFile "1" "aa11" "x.txt" ""; mkFile "2" "bb22" "y.txt" "" ].

(** The destination after the first run, in which creating [/out/y.txt]
    failed, and after the second run. *)
Definition afterRun1 : World :=
  ({[ "/out" := None; "/out/x.txt" := Some (Mem.Payload "payload of 1") ]}, []).

Definition afterRun2 : World :=
  ({[ "/out" := None; "/out/x.txt" := Some (Mem.Payload "payload of 1");
      "/out/y.txt" := Some (Mem.Payload "payload of 2") ]}, []).

End Flaky.

(** * Properties *)

(** ** Name sanitizer *)

Section Sanitizer.

Implicit Types (s : string) (c : ascii) (cls : list Regexp.ClassItem).

Lemma forbidden_class_spec c :
  Regexp.classMatches forbidden c = bool_decide (specForbiddenChar c).
Proof. destruct c as [[] [] [] [] [] [] [] []]; vm_compute; reflexivity. Qed.

Lemma forbidden_class_iff c :
  Regexp.classMatches forbidden c = true ↔ specForbiddenChar c.
Proof. rewrite forbidden_class_spec. apply bool_decide_eq_true. Qed.

(** With the empty replacement the scanner is a filter, whatever its state. *)
Lemma replaceAllFrom_empty_filter cls inMatch s :
  list_ascii_of_string (Regexp.replaceAllFrom cls "" inMatch s)
  = filter (fun c => Regexp.classMatches cls c = false) (list_ascii_of_string s).
Proof.
  revert inMatch. induction s as [|c rest IH]; intros inMatch; simpl; [done|].
  destruct (Regexp.classMatches cls c) eqn:Hc.
  - rewrite filter_cons_False by (rewrite Hc; done).
    destruct inMatch; simpl; apply IH.
  - rewrite filter_cons_True by done. simpl. by rewrite IH.
Qed.

Lemma sanitize_chars s :
  list_ascii_of_string (sanitizeFileName s)
  = filter (fun c => ¬ specForbiddenChar c) (list_ascii_of_string s).
Proof.
  unfold sanitizeFileName, Regexp.ReplaceAllString.
  rewrite replaceAllFrom_empty_filter.
  apply list_filter_iff. intros c.
  rewrite <- forbidden_class_iff. destruct (Regexp.classMatches forbidden c); naive_solver.
Qed.

Lemma sanitize_spec s : sanitizeFileName s = specSanitize s.
Proof.
  unfold specSanitize. rewrite <- sanitize_chars.
  by rewrite string_of_list_ascii_of_string.
Qed.

Lemma sanitize_clean s :
  Forall (fun c => ¬ specForbiddenChar c) (list_ascii_of_string (sanitizeFileName s)).
Proof. rewrite sanitize_chars. apply Forall_forall. intros c Hc. by apply list_elem_of_filter in Hc as [? _]. Qed.

Lemma sanitize_idem s : sanitizeFileName (sanitizeFileName s) = sanitizeFileName s.
Proof.
  rewrite <- (string_of_list_ascii_of_string (sanitizeFileName (sanitizeFileName s))).
  rewrite <- (string_of_list_ascii_of_string (sanitizeFileName s)) at 2.
  f_equal. rewrite (sanitize_chars (sanitizeFileName s)).
  rewrite sanitize_chars. apply list_filter_filter_l. done.
Qed.

Lemma list_ascii_of_string_app s1 s2 :
  list_ascii_of_string (s1 +:+ s2)
  = list_ascii_of_string s1 ++ list_ascii_of_string s2.
Proof. induction s1 as [|c r IH]; simpl; [done|]. by rewrite IH. Qed.

Lemma string_eq_chars s1 s2 :
  list_ascii_of_string s1 = list_ascii_of_string s2 → s1 = s2.
Proof.
  intros E. rewrite <- (string_of_list_ascii_of_string s1), E.
  apply string_of_list_ascii_of_string.
Qed.

Lemma sanitize_app s1 s2 :
  sanitizeFileName (s1 +:+ s2) = sanitizeFileName s1 +:+ sanitizeFileName s2.
Proof.
  apply string_eq_chars.
  rewrite list_ascii_of_string_app, !sanitize_chars, list_ascii_of_string_app.
  apply filter_app.
Qed.

End Sanitizer.

(** C6: sanitizing twice is sanitizing once, and the output is a
    subsequence of the input from which only characters of the forbidden
    class were removed: it is the input filtered by the complement of the
    class, so nothing is introduced and nothing else is dropped. *)
Theorem C6_sanitize_idempotent_subsequence :
  ∀ s : string,
    sanitizeFileName (sanitizeFileName s) = sanitizeFileName s
    ∧ list_ascii_of_string (sanitizeFileName s)
        `sublist_of` list_ascii_of_string s
    ∧ list_ascii_of_string (sanitizeFileName s)
      = filter (fun c => Regexp.classMatches forbidden c = false)
          (list_ascii_of_string s).
Proof.
  intros s. split; [apply sanitize_idem|].
  assert (E := replaceAllFrom_empty_filter forbidden false s).
  split; [|exact E].
  unfold sanitizeFileName, Regexp.ReplaceAllString. rewrite E.
  apply sublist_filter.
Qed.

(** C7: the sanitizer is a total function that deletes exactly the nine
    listed characters and the C0 controls: it agrees with the filter the
    specification describes, the compiled class is the listed set, the
    kept characters stay in order with no separator put in (it distributes
    over concatenation), and a forbidden character collapses to nothing. *)
Theorem C7_sanitize_deletes_exactly_forbidden :
  (∀ s : string, sanitizeFileName s = specSanitize s)
  ∧ (∀ c : ascii, Regexp.classMatches forbidden c = true ↔ specForbiddenChar c)
  ∧ (∀ s1 s2 : string,
       sanitizeFileName (s1 +:+ s2) = sanitizeFileName s1 +:+ sanitizeFileName s2)
  ∧ (∀ (c : ascii) (s : string),
       sanitizeFileName (String c s)
       = if decide (specForbiddenChar c) then sanitizeFileName s
         else String c (sanitizeFileName s)).
Proof.
  split; [apply sanitize_spec|]. split; [apply forbidden_class_iff|].
  split; [apply sanitize_app|].
  intros c s. apply string_eq_chars. rewrite sanitize_chars. simpl.
  destruct (decide (specForbiddenChar c)) as [Hc|Hc].
  - rewrite filter_cons_False by naive_solver. by rewrite sanitize_chars.
  - rewrite filter_cons_True by done. simpl. by rewrite sanitize_chars.
Qed.

(** A run of forbidden characters disappears, a hyphen replacement would
    not: the sanitizer deletes, it does not substitute. *)
Example sanitize_run_collapses :
  sanitizeFileName "a<>:b" = "ab"
  ∧ Regexp.ReplaceAllString forbidden "a<>:b" "-" = "a-b".
Proof. split; reflexivity. Qed.

(** ** Primary mapping builder *)

Section Builder.

Context {Handle : Type} {RT : Runtime Handle}.

Implicit Types (m : gmap string File) (file f : File) (files : list File).

Lemma addFile_guard f :
  String.eqb (ID f) "" || String.eqb (ContentHash f) ""
    || String.eqb (Filename f) "." = false
  ↔ keptEntry f.
Proof.
  unfold keptEntry. rewrite !orb_false_iff, !String.eqb_neq. tauto.
Qed.

Lemma addFile_map m file :
  (addFile m file).1
  = if decide (keptEntry (sanitizedEntry file))
    then <[ID file := sanitizedEntry file]> m else m.
Proof.
  unfold addFile. fold (sanitizedEntry file).
  destruct (decide (keptEntry (sanitizedEntry file))) as [Hk|Hk].
  - apply addFile_guard in Hk. rewrite Hk. done.
  - destruct (_ || _) eqn:E; [done|]. by apply addFile_guard in E.
Qed.

Lemma forEach_cons_fst {S A} (body : S → A → S * list Event) x l s :
  (forEach body (x :: l) s).1 = (forEach body l (body s x).1).1.
Proof.
  simpl. destruct (body s x) as [s1 ev1]. simpl.
  by destruct (forEach body l s1).
Qed.

Lemma forEach_addFile_lookup files m id :
  (forEach addFile files m).1 !! id
  = match specLookup files id with
    | Some f => Some f
    | None => m !! id
    end.
Proof.
  unfold specLookup. revert m.
  induction files as [|file rest IH]; intros m; [done|].
  rewrite forEach_cons_fst, IH, addFile_map. rewrite fmap_cons.
  destruct (decide (keptEntry (sanitizedEntry file))) as [Hk|Hk].
  - rewrite (filter_cons_True keptEntry) by done.
    destruct (decide (ID (sanitizedEntry file) = id)) as [Hid|Hid].
    + rewrite filter_cons_True by done. rewrite last_cons.
      destruct (last _); [done|]. simpl in Hid. subst id.
      by rewrite lookup_insert_eq.
    + rewrite filter_cons_False by done.
      destruct (last _); [done|]. simpl in Hid. by rewrite lookup_insert_ne.
  - by rewrite (filter_cons_False keptEntry) by done.
Qed.

Lemma specLookup_Some files id f :
  specLookup files id = Some f →
  ID f = id ∧ keptEntry f ∧ ∃ file, file ∈ files ∧ f = sanitizedEntry file.
Proof.
  unfold specLookup. intros Hl.
  assert (Hin : f ∈ filter (fun file => ID file = id)
                  (filter keptEntry (sanitizedEntry <$> files))).
  { by apply last_Some_elem_of. }
  apply list_elem_of_filter in Hin as [Hid Hin].
  apply list_elem_of_filter in Hin as [Hk Hin].
  apply list_elem_of_fmap in Hin as (file & -> & Hin). eauto.
Qed.

Lemma buildFileMapping_ok (source : FS Handle) path (h : Handle) files :
  Open source path = Ok h → parseFilesXML h = Ok files →
  buildFileMapping source path
  = (Ok (forEach addFile files ∅).1, SourceOpen path :: (forEach addFile files ∅).2).
Proof.
  intros Ho Hp. unfold buildFileMapping. rewrite Ho, Hp.
  by destruct (forEach addFile files ∅).
Qed.

Lemma buildFileMapping_inv (source : FS Handle) path m ev :
  buildFileMapping source path = (Ok m, ev) →
  ∃ (h : Handle) files, Open source path = Ok h ∧ parseFilesXML h = Ok files
    ∧ m = (forEach addFile files ∅).1.
Proof.
  unfold buildFileMapping. intros Hb.
  destruct (Open source path) as [h|]; [|done].
  destruct (parseFilesXML h) as [files|] eqn:Hp; [|done].
  exists h, files. destruct (forEach addFile files ∅). naive_solver.
Qed.

(** C1, as the code has it: every record of a mapping that
    [buildFileMapping] returns is stored under its own id, has a non-empty
    id, a non-empty content hash, and a filename that is sanitized (it is
    its own sanitization and holds no forbidden character) and differs from
    the placeholder [.]; the empty filename is not excluded. *)
Theorem C1_mapping_records_pass_guard :
  ∀ (source : FS Handle) (path : string) (m : gmap string File) (ev : list Event),
    buildFileMapping source path = (Ok m, ev) →
    ∀ (id : string) (f : File),
      m !! id = Some f →
      ID f = id ∧ ID f ≠ "" ∧ ContentHash f ≠ "" ∧ Filename f ≠ "."
      ∧ sanitizeFileName (Filename f) = Filename f
      ∧ Forall (fun c => ¬ specForbiddenChar c) (list_ascii_of_string (Filename f)).
Proof.
  intros source path m ev Hb id f Hf.
  apply buildFileMapping_inv in Hb as (file & files & _ & _ & ->).
  rewrite forEach_addFile_lookup, lookup_empty in Hf.
  destruct (specLookup files id) as [f'|] eqn:Hl; [|done].
  injection Hf as ->.
  apply specLookup_Some in Hl as (Hid & (H1 & H2 & H3) & file' & _ & ->).
  repeat split; try done; simpl.
  - apply sanitize_idem.
  - apply sanitize_clean.
Qed.

(** C2: for a document that opens and decodes, [buildFileMapping] returns a
    mapping that holds, under every id, the last entry of the document with
    that id among those that pass the guard (non-empty id, non-empty hash,
    sanitized filename other than [.]), stored sanitized: its keys are
    exactly the ids of the entries that pass the guard, one record each. *)
Theorem C2_mapping_exactly_kept_last_wins :
  ∀ (source : FS Handle) (path : string) (file : Handle) (files : list File),
    Open source path = Ok file →
    parseFilesXML file = Ok files →
    ∃ (m : gmap string File) (ev : list Event),
      buildFileMapping source path = (Ok m, ev)
      ∧ (∀ id, m !! id = specLookup files id)
      ∧ (∀ id, id ∈ dom m ↔
           ∃ entry, entry ∈ files ∧ ID entry = id ∧ ID entry ≠ ""
             ∧ ContentHash entry ≠ ""
             ∧ sanitizeFileName (Filename entry) ≠ ".")
      ∧ (∀ id f, m !! id = Some f → ID f = id).
Proof.
  intros source path file files Ho Hp.
  eexists _, _. split; [by apply buildFileMapping_ok with file|].
  assert (Hlook : ∀ id, (forEach addFile files ∅).1 !! id = specLookup files id).
  { intros id. rewrite forEach_addFile_lookup, lookup_empty.
    by destruct (specLookup files id). }
  split; [exact Hlook|]. split.
  - intros id. rewrite elem_of_dom, Hlook. split.
    + intros [f Hf]. apply specLookup_Some in Hf
        as (Hid & (H1 & H2 & H3) & entry & Hin & ->).
      exists entry. simpl in *. done.
    + intros (entry & Hin & Hid & H1 & H2 & H3).
      unfold specLookup. apply last_is_Some.
      intros Hnil.
      assert (Hmem : sanitizedEntry entry ∈
                filter (fun file0 => ID file0 = id)
                  (filter keptEntry (sanitizedEntry <$> files))).
      { apply list_elem_of_filter. split; [done|].
        apply list_elem_of_filter. split; [done|].
        apply list_elem_of_fmap. eauto. }
      rewrite Hnil in Hmem. by apply not_elem_of_nil in Hmem.
  - intros id f Hf. rewrite Hlook in Hf.
    by apply specLookup_Some in Hf as (? & _).
Qed.

End Builder.

(** The claim as worded fails: an entry whose filename sanitizes to the
    empty string enters the mapping. *)
Lemma C1_counterexample_empty_filename :
  ∃ (m : gmap string File) (ev : list Event) (f : File),
    buildFileMapping (RT := Mem.runtime false)
      (Mem.store [("files.xml", Mem.FilesXML [mkFile "7" "ab12" "?" ""])] [])
      "files.xml" = (Ok m, ev)
    ∧ m !! "7" = Some f
    ∧ Filename f = "".
Proof.
  exists {["7" := mkFile "7" "ab12" "" ""]}, [SourceOpen "files.xml"],
    (mkFile "7" "ab12" "" "").
  split; [vm_compute; reflexivity|]. split; [vm_compute; reflexivity|reflexivity].
Qed.

Lemma C1_witness :
  buildFileMapping (RT := Mem.runtime false) Mem.archive "files.xml"
  = (Ok {["1" := mkFile "1" Mem.hash1 "ab.txt" ""]}, [SourceOpen "files.xml"])
  ∧ ({["1" := mkFile "1" Mem.hash1 "ab.txt" ""]} : gmap string File) !! "1"
    = Some (mkFile "1" Mem.hash1 "ab.txt" "")
  ∧ Filename (mkFile "1" Mem.hash1 "ab.txt" "") ≠ ".".
Proof.
  assert (H1 : buildFileMapping (RT := Mem.runtime false) Mem.archive "files.xml"
    = (Ok {["1" := mkFile "1" Mem.hash1 "ab.txt" ""]}, [SourceOpen "files.xml"]))
    by (vm_compute; reflexivity).
  assert (H2 : ({["1" := mkFile "1" Mem.hash1 "ab.txt" ""]} : gmap string File) !! "1"
    = Some (mkFile "1" Mem.hash1 "ab.txt" "")) by (vm_compute; reflexivity).
  split; [exact H1|]. split; [exact H2|].
  exact (proj1 (proj2 (proj2 (proj2
    (C1_mapping_records_pass_guard _ _ _ _ H1 _ _ H2))))).
Defined.

Lemma C2_witness :
  Open Mem.archive "files.xml" = Ok (Mem.FilesXML [mkFile "1" Mem.hash1 "a/b.txt" ""])
  ∧ ∃ (m : gmap string File) (ev : list Event),
      buildFileMapping (RT := Mem.runtime false) Mem.archive "files.xml" = (Ok m, ev)
      ∧ ∀ id, m !! id = specLookup [mkFile "1" Mem.hash1 "a/b.txt" ""] id.
Proof.
  assert (H1 : Open Mem.archive "files.xml"
    = Ok (Mem.FilesXML [mkFile "1" Mem.hash1 "a/b.txt" ""]))
    by (vm_compute; reflexivity).
  split; [exact H1|].
  destruct (C2_mapping_exactly_kept_last_wins (RT := Mem.runtime false)
              Mem.archive "files.xml" _ _ H1 eq_refl) as (m & ev & Hb & Hl & _).
  exists m, ev. split; [exact Hb | exact Hl].
Defined.

(** ** Folder resolver *)

Section Resolver.

Context {Handle : Type} {RT : Runtime Handle}.

Implicit Types (m : gmap string File) (f : File) (ids : list string).

(** A property of the loop state that every iteration keeps holds at the
    end of the loop. *)
Lemma forEach_invariant {S A} (P : S → Prop) (body : S → A → S * list Event) l s :
  P s → (∀ s' x, P s' → P (body s' x).1) → P (forEach body l s).1.
Proof.
  intros Hs Hstep. revert s Hs.
  induction l as [|x rest IH]; intros s Hs; [done|].
  rewrite forEach_cons_fst. apply IH, Hstep, Hs.
Qed.

Lemma forEach_cons_snd {S A} (body : S → A → S * list Event) x l s :
  (forEach body (x :: l) s).2 = (body s x).2 ++ (forEach body l (body s x).1).2.
Proof.
  simpl. destruct (body s x) as [s1 ev1]. simpl.
  by destruct (forEach body l s1).
Qed.

Lemma assignFolder_map folderName m id :
  (assignFolder folderName m id).1
  = alter (fun f => withFolder f folderName) id m.
Proof.
  unfold assignFolder. destruct (m !! id) as [f|] eqn:Hm; simpl.
  - apply map_eq. intros k. destruct (decide (id = k)) as [->|Hne].
    + by rewrite lookup_insert_eq, lookup_alter_eq, Hm.
    + by rewrite lookup_insert_ne, lookup_alter_ne.
  - apply map_eq. intros k. destruct (decide (id = k)) as [->|Hne].
    + by rewrite lookup_alter_eq, Hm.
    + by rewrite lookup_alter_ne.
Qed.

Lemma assignFolder_lookup folderName ids m id :
  (forEach (assignFolder folderName) ids m).1 !! id
  = if decide (id ∈ ids) then (fun f => withFolder f folderName) <$> m !! id
    else m !! id.
Proof.
  revert m. induction ids as [|x rest IH]; intros m.
  { change ((forEach (assignFolder folderName) [] m).1) with m.
    destruct (decide (id ∈ [])) as [Hin|]; [|done]. by apply not_elem_of_nil in Hin. }
  rewrite forEach_cons_fst, IH, assignFolder_map.
  destruct (decide (x = id)) as [->|Hne].
  - rewrite lookup_alter_eq. rewrite (decide_True (P := id ∈ id :: rest)) by left.
    destruct (decide (id ∈ rest)); [|done].
    by destruct (m !! id).
  - rewrite lookup_alter_ne by done.
    destruct (decide (id ∈ rest)) as [Hin|Hin].
    + rewrite decide_True; [done|]. by right.
    + rewrite decide_False; [done|]. rewrite elem_of_cons.
      intros [Heq|Hr]; [by apply Hne | by apply Hin].
Qed.

(** A dangling reference prints its warning in debug mode. *)
Lemma assignFolder_warns folderName ids m id :
  id ∈ ids → m !! id = None → debug = true →
  Printf "Warning: File ID %s not found in file_mapping\n" [id]
    ∈ (forEach (assignFolder folderName) ids m).2.
Proof.
  intros Hin Hm Hd. revert m Hm.
  induction ids as [|x rest IH]; intros m Hm; [by apply not_elem_of_nil in Hin|].
  rewrite forEach_cons_snd. apply elem_of_app.
  destruct (decide (x = id)) as [->|Hne].
  - left. unfold assignFolder, logDebug. rewrite Hm, Hd. simpl. left.
  - right. apply elem_of_cons in Hin as [->|Hin]; [done|].
    apply IH; [done|]. by rewrite assignFolder_map, lookup_alter_ne.
Qed.

Lemma processDir_map source activitiesFolder m dir :
  (processDir source activitiesFolder m dir).1
  = match bundleOf source activitiesFolder dir with
    | Some (folderName, ids) => (forEach (assignFolder folderName) ids m).1
    | None => m
    end.
Proof.
  unfold processDir, bundleOf.
  destruct (negb (String.prefix "folder_" dir)); [done|].
  destruct (Open source _) as [folderFile|]; [|done].
  destruct (parseFolderXML folderFile) as [name|]; [|done].
  destruct (Open source _) as [inforefFile|]; [|done].
  destruct (parseInforefXML inforefFile) as [ids|]; [|done].
  by destruct (forEach _ ids m).
Qed.

Lemma processDir_lookup source activitiesFolder m dir id :
  (processDir source activitiesFolder m dir).1 !! id
  = match bundleOf source activitiesFolder dir with
    | Some (folderName, ids) =>
        if decide (id ∈ ids) then (fun f => withFolder f folderName) <$> m !! id
        else m !! id
    | None => m !! id
    end.
Proof.
  rewrite processDir_map.
  destruct (bundleOf source activitiesFolder dir) as [[folderName ids]|]; [|done].
  apply assignFolder_lookup.
Qed.

Lemma framed_refl m : framed m m.
Proof. intros id. destruct (m !! id); constructor. done. Qed.

Lemma framed_processDir source activitiesFolder m m' dir :
  framed m m' → framed m (processDir source activitiesFolder m' dir).1.
Proof.
  intros Hf id. specialize (Hf id). rewrite processDir_lookup.
  destruct (bundleOf source activitiesFolder dir) as [[folderName ids]|]; [|done].
  destruct (decide (id ∈ ids)); [|done].
  destruct Hf as [f f' (H1 & H2 & H3)|]; simpl; constructor. done.
Qed.

Lemma processActivitiesFolder_map source activitiesFolder m :
  (processActivitiesFolder source activitiesFolder m).1.1
  = match ReadDir source activitiesFolder with
    | Ok dirs => (forEach (processDir source activitiesFolder) dirs m).1
    | Err _ => m
    end.
Proof.
  unfold processActivitiesFolder.
  destruct (ReadDir source activitiesFolder) as [dirs|]; [|done].
  by destruct (forEach _ dirs m).
Qed.

Lemma processActivitiesFolder_framed source activitiesFolder m :
  framed m (processActivitiesFolder source activitiesFolder m).1.1.
Proof.
  rewrite processActivitiesFolder_map.
  destruct (ReadDir source activitiesFolder) as [dirs|]; [|apply framed_refl].
  apply (forEach_invariant (framed m)); [apply framed_refl|].
  intros m' dir. apply framed_processDir.
Qed.

End Resolver.

Section ResolverOrder.

Context {Handle : Type} {RT : Runtime Handle}.

Implicit Types (m : gmap string File) (dirs : list string).

Lemma Forall_pairwise_perm {A} (R : A → A → Prop) (l l' : list A) :
  (∀ x y, R x y → R y x) → l ≡ₚ l' → pairwise R l → pairwise R l'.
Proof.
  intros Hsym Hp. induction Hp as [|x l l' Hp IH|x y l|l l' l'' _ IH1 _ IH2].
  - done.
  - simpl. intros [HF HP]. split; [by rewrite <- Hp | by apply IH].
  - simpl. intros [HF1 [HF2 HP]].
    apply Forall_cons in HF1 as [Hyx HF1].
    split; [apply Forall_cons; split; [by apply Hsym | done] | done].
  - intros HP. by apply IH2, IH1.
Qed.

Lemma disjointLists_sym (l1 l2 : list string) :
  disjointLists l1 l2 → disjointLists l2 l1.
Proof. intros Hd x H2 H1. by apply (Hd x). Qed.

Lemma processDir_commute source activitiesFolder m d1 d2 :
  disjointLists (bundleRefs source activitiesFolder d1)
    (bundleRefs source activitiesFolder d2) →
  (processDir source activitiesFolder
     (processDir source activitiesFolder m d1).1 d2).1
  = (processDir source activitiesFolder
       (processDir source activitiesFolder m d2).1 d1).1.
Proof.
  unfold bundleRefs. intros Hd. apply map_eq. intros id.
  rewrite !processDir_lookup.
  destruct (bundleOf source activitiesFolder d1) as [[n1 ids1]|]; [|done].
  destruct (bundleOf source activitiesFolder d2) as [[n2 ids2]|]; [|done].
  destruct (decide (id ∈ ids1)) as [H1|H1]; [|done].
  destruct (decide (id ∈ ids2)) as [H2|H2]; [|done].
  destruct (Hd id H1 H2).
Qed.

Lemma forEach_processDir_perm source activitiesFolder dirs dirs' m :
  dirs ≡ₚ dirs' →
  pairwise (fun d d' => disjointLists (bundleRefs source activitiesFolder d)
                          (bundleRefs source activitiesFolder d')) dirs →
  (forEach (processDir source activitiesFolder) dirs m).1
  = (forEach (processDir source activitiesFolder) dirs' m).1.
Proof.
  intros Hp. revert m.
  induction Hp as [|x l l' Hp IH|x y l|l l' l'' Hp1 IH1 Hp2 IH2]; intros m HP.
  - done.
  - rewrite !forEach_cons_fst. destruct HP as [_ HP]. by apply IH.
  - rewrite !forEach_cons_fst. destruct HP as [HF _].
    apply Forall_cons in HF as [Hyx _].
    by rewrite (processDir_commute source activitiesFolder m y x Hyx).
  - rewrite IH1 by done. apply IH2.
    eapply Forall_pairwise_perm; [|exact Hp1|exact HP].
    intros d d'. apply disjointLists_sym.
Qed.

(** The outer loop looks at the store only through [Open]. *)
Lemma processDir_ext (source1 source2 : FS Handle) activitiesFolder m dir :
  (∀ name, Open source1 name = Open source2 name) →
  processDir source1 activitiesFolder m dir
  = processDir source2 activitiesFolder m dir.
Proof. intros Ho. unfold processDir. by rewrite !Ho. Qed.

Lemma forEach_ext {S A} (body1 body2 : S → A → S * list Event) l s :
  (∀ s' x, body1 s' x = body2 s' x) → forEach body1 l s = forEach body2 l s.
Proof.
  intros Hb. revert s. induction l as [|x rest IH]; intros s; [done|].
  simpl. rewrite Hb. destruct (body2 s x) as [s1 ev1]. by rewrite IH.
Qed.

(** C4, as the code has it: a bundle whose two documents open and decode
    sets the folder of every referenced record of the mapping to the
    sanitized folder name, leaves a dangling reference out of the mapping,
    leaves every other record as it was and keeps the key set; the warning
    for a dangling reference is printed when debug mode is on; and the run
    returns an error exactly when the activities folder cannot be listed. *)
Theorem C4_bundle_assigns_folder_tolerates_dangling :
  ∀ (source : FS Handle) (activitiesFolder dir : string) (m : gmap string File)
    (folderFile inforefFile : Handle) (name : string) (ids : list string),
    String.prefix "folder_" dir = true →
    Open source (path_Join [path_Join [activitiesFolder; dir]; "folder.xml"])
      = Ok folderFile →
    parseFolderXML folderFile = Ok name →
    Open source (path_Join [path_Join [activitiesFolder; dir]; "inforef.xml"])
      = Ok inforefFile →
    parseInforefXML inforefFile = Ok ids →
    (∀ id f, id ∈ ids → m !! id = Some f →
       (processDir source activitiesFolder m dir).1 !! id
       = Some (withFolder f (sanitizeFileName name)))
    ∧ (∀ id, id ∈ ids → m !! id = None →
         (processDir source activitiesFolder m dir).1 !! id = None
         ∧ (debug = true →
            Printf "Warning: File ID %s not found in file_mapping\n" [id]
              ∈ (processDir source activitiesFolder m dir).2))
    ∧ (∀ id, id ∉ ids →
         (processDir source activitiesFolder m dir).1 !! id = m !! id)
    ∧ dom (processDir source activitiesFolder m dir).1 = dom m
    ∧ ((processActivitiesFolder source activitiesFolder m).1.2 = None
       ↔ ∃ dirs, ReadDir source activitiesFolder = Ok dirs).
Proof.
  intros source activitiesFolder dir m folderFile inforefFile name ids
    Hpre Hf Hn Hi Hids.
  assert (Hb : bundleOf source activitiesFolder dir
               = Some (sanitizeFileName name, ids)).
  { unfold bundleOf. by rewrite Hpre, Hf, Hn, Hi, Hids. }
  assert (Hl := processDir_lookup source activitiesFolder m dir).
  rewrite Hb in Hl.
  split; [|split; [|split; [|split]]].
  - intros id f Hin Hm. by rewrite Hl, decide_True, Hm.
  - intros id Hin Hm. split; [by rewrite Hl, decide_True, Hm|].
    intros Hd. unfold processDir. rewrite Hpre, Hf, Hn, Hi, Hids. simpl.
    pose proof (assignFolder_warns (sanitizeFileName name) ids m id Hin Hm Hd) as Hw.
    destruct (forEach _ ids m) as [m' ev]. simpl in *.
    by do 2 right.
  - intros id Hin. by rewrite Hl, decide_False.
  - apply set_eq. intros id. rewrite !elem_of_dom, Hl.
    destruct (decide (id ∈ ids)); [|done]. by rewrite fmap_is_Some.
  - unfold processActivitiesFolder.
    destruct (ReadDir source activitiesFolder) as [dirs|err]; simpl.
    + destruct (forEach _ dirs m). simpl. naive_solver.
    + split; [done|]. by intros [dirs ?].
Qed.

(** C8: when the bundles of the activities folder reference pairwise
    disjoint sets of ids, the mapping after [processActivitiesFolder] does
    not depend on the order in which the folder lists them. *)
Theorem C8_disjoint_bundles_commute :
  ∀ (source1 source2 : FS Handle) (activitiesFolder : string)
    (dirs1 dirs2 : list string) (m : gmap string File),
    (∀ name, Open source1 name = Open source2 name) →
    ReadDir source1 activitiesFolder = Ok dirs1 →
    ReadDir source2 activitiesFolder = Ok dirs2 →
    dirs1 ≡ₚ dirs2 →
    pairwise (fun d d' => disjointLists (bundleRefs source1 activitiesFolder d)
                            (bundleRefs source1 activitiesFolder d')) dirs1 →
    (processActivitiesFolder source1 activitiesFolder m).1.1
    = (processActivitiesFolder source2 activitiesFolder m).1.1.
Proof.
  intros source1 source2 activitiesFolder dirs1 dirs2 m Ho H1 H2 Hp HP.
  rewrite !processActivitiesFolder_map, H1, H2.
  rewrite (forEach_processDir_perm _ _ _ _ _ Hp HP).
  f_equal. apply forEach_ext. intros m' dir. by apply processDir_ext.
Qed.

(** C10: [processActivitiesFolder] neither adds nor removes an entry and
    leaves the id, the content hash and the filename of every record as
    they were: only the folder of a record can differ afterwards. *)
Theorem C10_resolution_changes_only_folder :
  ∀ (source : FS Handle) (activitiesFolder : string) (m : gmap string File),
    dom (processActivitiesFolder source activitiesFolder m).1.1 = dom m
    ∧ (∀ id f',
         (processActivitiesFolder source activitiesFolder m).1.1 !! id = Some f' →
         ∃ f, m !! id = Some f ∧ ID f' = ID f
              ∧ ContentHash f' = ContentHash f ∧ Filename f' = Filename f)
    ∧ (∀ id,
         (processActivitiesFolder source activitiesFolder m).1.1 !! id = None ↔
         m !! id = None).
Proof.
  intros source activitiesFolder m.
  pose proof (processActivitiesFolder_framed source activitiesFolder m) as Hfr.
  split; [|split].
  - apply set_eq. intros id. rewrite !elem_of_dom.
    destruct (Hfr id); split; intros [? ?]; done.
  - intros id f' Hf'. specialize (Hfr id). rewrite Hf' in Hfr.
    inversion Hfr as [f ? Hs|]; subst. exists f. by destruct Hs as (?&?&?).
  - intros id. destruct (Hfr id); split; done.
Qed.

End ResolverOrder.

(** The claim as worded fails in the default mode: with debug off, two
    dangling references are passed over without a line of output. *)
Lemma C4_counterexample_silent_dangling :
  processDir (RT := Mem.runtime false) Mem.archive "activities" ∅ "folder_5"
  = (∅, [SourceOpen "activities/folder_5/folder.xml";
         SourceOpen "activities/folder_5/inforef.xml"])
  ∧ ∀ format args,
      Printf format args
        ∉ (processDir (RT := Mem.runtime false) Mem.archive "activities" ∅
             "folder_5").2.
Proof.
  assert (E : processDir (RT := Mem.runtime false) Mem.archive "activities" ∅
                "folder_5"
              = (∅, [SourceOpen "activities/folder_5/folder.xml";
                     SourceOpen "activities/folder_5/inforef.xml"]))
    by (vm_compute; reflexivity).
  split; [exact E|]. intros format args. rewrite E. simpl.
  rewrite !elem_of_cons. intros [?|[?|Hn]]; [done|done|by apply not_elem_of_nil in Hn].
Qed.

Lemma C4_witness :
  String.prefix "folder_" "folder_5" = true
  ∧ (processDir (RT := Mem.runtime true) Mem.archive "activities"
       {["1" := mkFile "1" Mem.hash1 "ab.txt" ""]} "folder_5").1 !! "1"
    = Some (withFolder (mkFile "1" Mem.hash1 "ab.txt" "")
              (sanitizeFileName "My:Folder"))
  ∧ Printf "Warning: File ID %s not found in file_mapping\n" ["2"]
      ∈ (processDir (RT := Mem.runtime true) Mem.archive "activities"
           {["1" := mkFile "1" Mem.hash1 "ab.txt" ""]} "folder_5").2.
Proof.
  pose proof (C4_bundle_assigns_folder_tolerates_dangling
                (RT := Mem.runtime true) Mem.archive "activities" "folder_5"
                {["1" := mkFile "1" Mem.hash1 "ab.txt" ""]}
                (Mem.FolderXML "My:Folder") (Mem.InforefXML ["1"; "2"])
                "My:Folder" ["1"; "2"]
                eq_refl eq_refl eq_refl eq_refl eq_refl)
    as (Hset & Hdangling & _).
  split; [reflexivity|]. split.
  - apply Hset; [left | vm_compute; reflexivity].
  - apply Hdangling; [right; left | vm_compute; reflexivity | reflexivity].
Defined.

Lemma C8_witness :
  Mem.twoBundles ["folder_5"; "folder_6"] = Mem.twoBundles ["folder_5"; "folder_6"]
  ∧ ["folder_5"; "folder_6"] ≡ₚ ["folder_6"; "folder_5"]
  ∧ (processActivitiesFolder (RT := Mem.runtime false)
       (Mem.twoBundles ["folder_5"; "folder_6"]) "activities" Mem.twoRecords).1.1
    = (processActivitiesFolder (RT := Mem.runtime false)
         (Mem.twoBundles ["folder_6"; "folder_5"]) "activities" Mem.twoRecords).1.1.
Proof.
  split; [reflexivity|]. split; [apply perm_swap|].
  apply (C8_disjoint_bundles_commute (RT := Mem.runtime false)
           (Mem.twoBundles ["folder_5"; "folder_6"])
           (Mem.twoBundles ["folder_6"; "folder_5"])
           "activities" ["folder_5"; "folder_6"] ["folder_6"; "folder_5"]).
  - intros name. reflexivity.
  - reflexivity.
  - reflexivity.
  - apply perm_swap.
  - simpl. split; [|split; [constructor|exact I]].
    constructor; [|constructor].
    apply (bool_decide_unpack _). vm_compute. exact I.
Defined.

(** ** Content materializer *)

Section Materializer.

Context {Handle : Type} {RT : Runtime Handle} {World : Type} {OSI : OS Handle World}.

Implicit Types (w : World) (f : File) (source : FS Handle) (ev : list Event).

Lemma sliceTo_ok (s : string) n :
  n ≤ String.length s → sliceTo s n = Some (substring 0 n s).
Proof. intros Hn. unfold sliceTo. by rewrite decide_True. Qed.

Lemma sliceTo_short (s : string) n : String.length s < n → sliceTo s n = None.
Proof. intros Hn. unfold sliceTo. rewrite decide_False; [done|lia]. Qed.

Lemma copyFile_short source dest w f :
  String.length (ContentHash f) < 2 →
  copyFile source dest w f
  = (Some (w, false),
     [Printf "Warning: Invalid ContentHash for file ID %s\n" [ID f]]).
Proof. intros Hs. unfold copyFile. by rewrite decide_True. Qed.

(** The body of the loop never panics: the slice is guarded. *)
Lemma copyFile_total source dest w f :
  ∃ w' copied, (copyFile source dest w f).1 = Some (w', copied).
Proof.
  unfold copyFile, ensureDir.
  destruct (decide (String.length (ContentHash f) < 2)); [by eexists _, _|].
  rewrite sliceTo_ok by lia.
  repeat case_match; simplify_eq; by eexists _, _.
Qed.

Lemma copyLoop_total source dest files w n :
  ∃ w' n', (copyLoop source dest files w n).1 = Some (w', n').
Proof.
  revert w n. induction files as [|f rest IH]; intros w n; [by eexists _, _|].
  simpl. destruct (copyFile_total source dest w f) as (w1 & copied & Hf).
  destruct (copyFile source dest w f) as [r ev]. simpl in Hf. subst r.
  destruct (IH w1 (if copied then S n else n)) as (w' & n' & Hl).
  destruct (copyLoop source dest rest w1 _) as [r ev']. simpl in *.
  by eexists _, _.
Qed.

Lemma copyLoop_skip_short source dest before after w n f :
  String.length (ContentHash f) < 2 →
  (copyLoop source dest (before ++ f :: after) w n).1
  = (copyLoop source dest (before ++ after) w n).1.
Proof.
  intros Hs. revert w n.
  induction before as [|g rest IH]; intros w n; simpl.
  - rewrite copyFile_short by done.
    by destruct (copyLoop source dest after w n).
  - destruct (copyFile source dest w g) as [[[w1 copied]|] ev]; [|done].
    specialize (IH w1 (if copied then S n else n)).
    destruct (copyLoop source dest (rest ++ f :: after) w1 _).
    destruct (copyLoop source dest (rest ++ after) w1 _). done.
Qed.

(** C5: a record whose content hash has fewer than two bytes is passed over
    with the warning as the only event (no open of the source, no stat, no
    directory or file created, nothing copied), the state of the destination
    and the counter are as before, and the run ends as if the record were
    not in the mapping; taking the two-byte prefix of such a hash would
    panic, and the guard keeps every run from doing so. *)
Theorem C5_short_hash_is_skipped_without_effect :
  ∀ (source : FS Handle) (destinationFolder : string) (w : World) (f : File),
    String.length (ContentHash f) < 2 →
    copyFile source destinationFolder w f
    = (Some (w, false),
       [Printf "Warning: Invalid ContentHash for file ID %s\n" [ID f]])
    ∧ (∀ before after w0 n,
         (copyLoop source destinationFolder (before ++ f :: after) w0 n).1
         = (copyLoop source destinationFolder (before ++ after) w0 n).1)
    ∧ sliceTo (ContentHash f) 2 = None
    ∧ (∀ order w0, ∃ w' copiedFiles,
         (copyFiles source destinationFolder order w0).1 = Some (w', copiedFiles)).
Proof.
  intros source dest w f Hs.
  split; [by apply copyFile_short|].
  split; [intros; by apply copyLoop_skip_short|].
  split; [by apply sliceTo_short|].
  intros order w0. apply copyLoop_total.
Qed.

(** C9: a record that [copyFiles] materializes was read from the store at
    the join of [files], the first two bytes of its hash and its hash, and
    was created and written at the join of the destination folder and the
    filename when its folder is empty, and of the destination folder, the
    folder and the filename otherwise. *)
Theorem C9_paths_of_a_materialized_record :
  ∀ (source : FS Handle) (destinationFolder : string) (w w' : World)
    (f : File) (ev : list Event),
    copyFile source destinationFolder w f = (Some (w', true), ev) →
    ∃ (sourceFile : Handle) (dirEvents : list Event) (w1 w2 : World),
      2 ≤ String.length (ContentHash f)
      ∧ Open source
          (path_Join ["files"; substring 0 2 (ContentHash f); ContentHash f])
        = Ok sourceFile
      ∧ os_Create w1
          (if decide (Folder f = "")
           then filepath_Join [destinationFolder; Filename f]
           else filepath_Join [destinationFolder; Folder f; Filename f])
        = (w2, None)
      ∧ io_Copy w2
          (if decide (Folder f = "")
           then filepath_Join [destinationFolder; Filename f]
           else filepath_Join [destinationFolder; Folder f; Filename f])
          sourceFile
        = (w', None)
      ∧ ev = [SourceOpen
                (path_Join ["files"; substring 0 2 (ContentHash f); ContentHash f]);
              OsStat (destinationPath destinationFolder f)]
             ++ dirEvents
             ++ [OsCreate (destinationPath destinationFolder f);
                 IoCopy (destinationPath destinationFolder f);
                 Printf "Create: %s\n" [destinationPath destinationFolder f]]
      ∧ destinationPath destinationFolder f
        = (if decide (Folder f = "")
           then filepath_Join [destinationFolder; Filename f]
           else filepath_Join [destinationFolder; Folder f; Filename f]).
Proof.
  intros source dest w w' f ev Hc.
  assert (Hd : destinationPath dest f
               = if decide (Folder f = "")
                 then filepath_Join [dest; Filename f]
                 else filepath_Join [dest; Folder f; Filename f]).
  { unfold destinationPath. destruct (decide (Folder f = "")) as [->|Hne]; [done|].
    apply String.eqb_neq in Hne. by rewrite Hne. }
  rewrite <- Hd. unfold copyFile in Hc.
  destruct (decide (String.length (ContentHash f) < 2)); [done|].
  rewrite sliceTo_ok in Hc by lia.
  destruct (Open source _) as [sourceFile|] eqn:Ho; [|done].
  destruct (os_Stat w (destinationPath dest f)); [done| |done].
  destruct (ensureDir w _) as [[w1 ok] ev1].
  destruct ok; [|done].
  destruct (os_Create w1 _) as [w2 [err|]] eqn:Hcr; [done|].
  destruct (io_Copy w2 _ sourceFile) as [w3 [err|]] eqn:Hcp; [done|].
  injection Hc as <- <-.
  exists sourceFile, ev1, w1, w2. repeat split; try done. lia.
Qed.

End Materializer.

Section Idempotence.

Context {Handle : Type} {RT : Runtime Handle} {World : Type}
  {OSI : OS Handle World} {LAWS : OSLaws World}.

Implicit Types (w : World) (f g : File) (source : FS Handle) (ev : list Event).

Lemma mkdirAll_keeps_eq w d w1 r p :
  os_MkdirAll w d = (w1, r) →
  os_Stat w p ≠ StatNotExist → os_Stat w1 p ≠ StatNotExist.
Proof. intros E Hp. pose proof (mkdirAll_keeps w d p Hp) as K. by rewrite E in K. Qed.

Lemma create_keeps_eq w q w1 r p :
  os_Create w q = (w1, r) →
  os_Stat w p ≠ StatNotExist → os_Stat w1 p ≠ StatNotExist.
Proof. intros E Hp. pose proof (create_keeps w q p Hp) as K. by rewrite E in K. Qed.

Lemma copy_keeps_eq w q h w1 r p :
  io_Copy w q h = (w1, r) →
  os_Stat w p ≠ StatNotExist → os_Stat w1 p ≠ StatNotExist.
Proof. intros E Hp. pose proof (copy_keeps w q h p Hp) as K. by rewrite E in K. Qed.

(** Unfold one iteration into its branches, each with the equations of the
    calls that led to it. *)
Ltac copyFile_branches H :=
  unfold copyFile, ensureDir in H;
  match type of H with
  | context [decide (String.length (ContentHash ?f) < 2)] =>
      destruct (decide (String.length (ContentHash f) < 2)) as [?Hshort|?Hlong];
      [| rewrite (sliceTo_ok (ContentHash f) 2) in H by lia ]
  end;
  repeat case_match; simplify_eq.

Lemma copyFile_settled_noop source dest w f :
  settled source dest w f →
  ∃ ev, copyFile source dest w f = (Some (w, false), ev)
        ∧ Forall (fun e => ¬ writesDestination e) ev.
Proof.
  intros Hs. unfold copyFile.
  destruct (decide (String.length (ContentHash f) < 2)) as [Hshort|Hlong].
  { eexists. split; [done|]. repeat constructor; simpl; tauto. }
  rewrite sliceTo_ok by lia.
  destruct Hs as [Hs|[[err Hs]|Hs]]; [lia| |].
  - unfold sourceFilePath in Hs. rewrite Hs.
    eexists. split; [done|]. repeat constructor; simpl; tauto.
  - destruct (Open source _) as [sourceFile|].
    + destruct (os_Stat w (destinationPath dest f)) eqn:Hst; [|done|];
        (eexists; split; [done|]; repeat constructor; simpl; tauto).
    + eexists. split; [done|]. repeat constructor; simpl; tauto.
Qed.

Lemma copyFile_keeps source dest w f w' copied ev p :
  copyFile source dest w f = (Some (w', copied), ev) →
  os_Stat w p ≠ StatNotExist → os_Stat w' p ≠ StatNotExist.
Proof.
  intros H Hp. copyFile_branches H;
    eauto using mkdirAll_keeps_eq, create_keeps_eq, copy_keeps_eq.
Qed.

Lemma creation_error_reported ev e :
  e ∈ ev → reportsCreationError e →
  Forall (fun e' => ¬ reportsCreationError e') ev → False.
Proof. intros Hin He HF. rewrite Forall_forall in HF. by apply (HF e). Qed.

Lemma copyFile_settles source dest w f w' copied ev :
  copyFile source dest w f = (Some (w', copied), ev) →
  Forall (fun e => ¬ reportsCreationError e) ev →
  settled source dest w' f.
Proof.
  intros H HF. unfold settled, sourceFilePath.
  destruct (decide (String.length (ContentHash f) < 2)) as [Hs|Hl]; [by left|].
  right. unfold copyFile, ensureDir in H.
  rewrite decide_False, (sliceTo_ok (ContentHash f) 2) in H by lia.
  destruct (Open source _) as [sourceFile|err] eqn:Ho; [|left; by exists err].
  right.
  destruct (os_Stat w (destinationPath dest f)) eqn:Hst.
  - simplify_eq. by rewrite Hst.
  - destruct (os_Stat w (filepath_Dir _)) eqn:Hsd.
    + destruct (os_Create w _) as [w2 [err|]] eqn:Hcr.
      * simplify_eq. exfalso. eapply creation_error_reported; [|  |exact HF].
        -- apply elem_of_app. right. apply elem_of_app. right. right. left.
        -- simpl. unfold creationErrorFormats. set_solver.
      * apply create_present in Hcr.
        destruct (io_Copy w2 _ sourceFile) as [w3 r] eqn:Hcp.
        assert (os_Stat w3 (destinationPath dest f) ≠ StatNotExist)
          by (eapply copy_keeps_eq; eauto).
        by destruct r; simplify_eq.
    + destruct (os_MkdirAll w _) as [w1 [err|]] eqn:Hmk.
      * simplify_eq. exfalso. eapply creation_error_reported; [| |exact HF].
        -- apply elem_of_app. right. right. right. left.
        -- simpl. unfold creationErrorFormats. set_solver.
      * destruct (os_Create w1 _) as [w2 [err|]] eqn:Hcr.
        -- simplify_eq. exfalso. eapply creation_error_reported; [| |exact HF].
           ++ apply elem_of_app. right. apply elem_of_app. right. right. left.
           ++ simpl. unfold creationErrorFormats. set_solver.
        -- apply create_present in Hcr.
           destruct (io_Copy w2 _ sourceFile) as [w3 r] eqn:Hcp.
           assert (os_Stat w3 (destinationPath dest f) ≠ StatNotExist)
             by (eapply copy_keeps_eq; eauto).
           by destruct r; simplify_eq.
    + simplify_eq. exfalso. eapply creation_error_reported; [| |exact HF].
      * apply elem_of_app. right. right. left.
      * simpl. unfold creationErrorFormats. set_solver.
  - simplify_eq. by rewrite Hst.
Qed.

Lemma settled_keeps source dest w f g w' copied ev :
  copyFile source dest w g = (Some (w', copied), ev) →
  settled source dest w f → settled source dest w' f.
Proof.
  intros H [Hs|[Hs|Hs]]; [by left|by right; left|].
  right; right. by eapply copyFile_keeps.
Qed.

Lemma copyLoop_cons_inv source dest g rest w n w' n' ev :
  copyLoop source dest (g :: rest) w n = (Some (w', n'), ev) →
  ∃ w1 copied ev0 ev1,
    copyFile source dest w g = (Some (w1, copied), ev0)
    ∧ copyLoop source dest rest w1 (if copied then S n else n)
      = (Some (w', n'), ev1)
    ∧ ev = ev0 ++ ev1.
Proof.
  simpl. destruct (copyFile source dest w g) as [[[w1 copied]|] ev0]; [|done].
  destruct (copyLoop source dest rest w1 _) as [r ev1] eqn:Hl.
  intros H. simplify_eq. by eexists _, _, _, _.
Qed.

Lemma copyLoop_keeps_settled source dest files w n w' n' ev f :
  copyLoop source dest files w n = (Some (w', n'), ev) →
  settled source dest w f → settled source dest w' f.
Proof.
  revert w n ev. induction files as [|g rest IH]; intros w n ev H Hs.
  - simpl in H. by simplify_eq.
  - apply copyLoop_cons_inv in H as (w1 & copied & ev0 & ev1 & Hg & Hl & _).
    eapply IH; [exact Hl|]. by eapply settled_keeps.
Qed.

Lemma copyLoop_settles source dest files w n w' n' ev :
  copyLoop source dest files w n = (Some (w', n'), ev) →
  Forall (fun e => ¬ reportsCreationError e) ev →
  ∀ f, f ∈ files → settled source dest w' f.
Proof.
  revert w n ev. induction files as [|g rest IH]; intros w n ev H HF f Hin.
  { by apply not_elem_of_nil in Hin. }
  apply copyLoop_cons_inv in H as (w1 & copied & ev0 & ev1 & Hg & Hl & ->).
  apply Forall_app in HF as [HF0 HF1].
  apply elem_of_cons in Hin as [->|Hin].
  - eapply copyLoop_keeps_settled; [exact Hl|]. by eapply copyFile_settles.
  - by eapply IH.
Qed.

Lemma copyLoop_noop source dest files w n :
  (∀ f, f ∈ files → settled source dest w f) →
  ∃ ev, copyLoop source dest files w n = (Some (w, n), ev)
        ∧ Forall (fun e => ¬ writesDestination e) ev.
Proof.
  induction files as [|g rest IH]; intros Hs.
  { exists []. by split. }
  destruct (copyFile_settled_noop source dest w g) as (ev0 & Hg & H0).
  { apply Hs. left. }
  destruct IH as (ev1 & Hl & H1).
  { intros f Hin. apply Hs. by right. }
  exists (ev0 ++ ev1). simpl. rewrite Hg, Hl. split; [done|].
  by apply Forall_app.
Qed.

(** A file is created only where [os.Stat] reported nothing. *)
Lemma copyFile_creates_absent source dest w f w' copied ev p :
  copyFile source dest w f = (Some (w', copied), ev) →
  OsCreate p ∈ ev →
  p = destinationPath dest f ∧ os_Stat w p = StatNotExist.
Proof.
  intros H Hin. unfold copyFile, ensureDir in H.
  destruct (decide (String.length (ContentHash f) < 2)) as [Hs|Hl].
  { simplify_eq. set_solver. }
  rewrite (sliceTo_ok (ContentHash f) 2) in H by lia.
  destruct (Open source _) as [sourceFile|err]; [|simplify_eq; set_solver].
  destruct (os_Stat w (destinationPath dest f)) eqn:Hst;
    [simplify_eq; set_solver| |simplify_eq; set_solver].
  repeat case_match; simplify_eq; set_solver.
Qed.

Lemma filter_length_elem {A} (P : A → Prop) `{!∀ x, Decision (P x)} (l : list A) x :
  x ∈ l → P x → 1 ≤ length (filter P l).
Proof.
  intros Hin Hx.
  assert (Hf : x ∈ filter P l) by (by apply list_elem_of_filter).
  destruct (filter P l); [by apply not_elem_of_nil in Hf|simpl; lia].
Qed.

Lemma copyFile_copied_creates source dest w f w' ev :
  copyFile source dest w f = (Some (w', true), ev) →
  1 ≤ length (filter isOsCreate ev).
Proof.
  intros H.
  copyFile_branches H;
    apply (filter_length_elem isOsCreate _ (OsCreate (destinationPath dest f)));
    try exact I; set_solver.
Qed.

Lemma copyLoop_count source dest files w n w' n' ev :
  copyLoop source dest files w n = (Some (w', n'), ev) →
  n ≤ n' ∧ n' ≤ n + length (filter isOsCreate ev).
Proof.
  revert w n ev. induction files as [|g rest IH]; intros w n ev H.
  { simpl in H. simplify_eq. simpl. lia. }
  apply copyLoop_cons_inv in H as (w1 & copied & ev0 & ev1 & Hg & Hl & ->).
  apply IH in Hl. rewrite filter_app, length_app.
  destruct copied; [|lia].
  apply copyFile_copied_creates in Hg. lia.
Qed.

Lemma copyFile_skips_existing source dest w f sourceFile :
  2 ≤ String.length (ContentHash f) →
  Open source (sourceFilePath f) = Ok sourceFile →
  os_Stat w (destinationPath dest f) = StatOk →
  copyFile source dest w f
  = (Some (w, false),
     [SourceOpen (sourceFilePath f); OsStat (destinationPath dest f);
      Printf "Skip (already exists): %s\n" [destinationPath dest f]]).
Proof.
  intros Hl Ho Hst. unfold copyFile.
  rewrite decide_False, sliceTo_ok by lia.
  unfold sourceFilePath in Ho. by rewrite Ho, Hst.
Qed.

(** C3, as the code has it: a record whose destination exists is passed
    over: nothing is written and the counter stays.  No run creates a file
    where [os.Stat] found something, and the count of a run is at most the
    number of files it created.  When the operating system removes nothing
    behind the program's back and the first run reported no error while
    creating a directory or a file, a second run over the same mapping, in
    whatever order, leaves the destination exactly as the first run left
    it, calls nothing that writes, and returns zero.  (A record whose
    creation failed in the first run is tried again by the second.) *)
Theorem C3_copyFiles_is_idempotent :
  ∀ (source : FS Handle) (destinationFolder : string)
    (fileMapping : gmap string File) (order1 order2 : list File)
    (w0 w1 : World) (n1 : nat) (ev1 : list Event),
    rangeOrder fileMapping order1 →
    rangeOrder fileMapping order2 →
    copyFiles source destinationFolder order1 w0 = (Some (w1, n1), ev1) →
    Forall (fun e => ¬ reportsCreationError e) ev1 →
    (∀ w f sourceFile,
       2 ≤ String.length (ContentHash f) →
       Open source (sourceFilePath f) = Ok sourceFile →
       os_Stat w (destinationPath destinationFolder f) = StatOk →
       copyFile source destinationFolder w f
       = (Some (w, false),
          [SourceOpen (sourceFilePath f);
           OsStat (destinationPath destinationFolder f);
           Printf "Skip (already exists): %s\n"
             [destinationPath destinationFolder f]]))
    ∧ (∀ w f w' copied ev p,
         copyFile source destinationFolder w f = (Some (w', copied), ev) →
         OsCreate p ∈ ev →
         p = destinationPath destinationFolder f ∧ os_Stat w p = StatNotExist)
    ∧ n1 ≤ length (filter isOsCreate ev1)
    ∧ ∃ ev2,
        copyFiles source destinationFolder order2 w1 = (Some (w1, 0), ev2)
        ∧ Forall (fun e => ¬ writesDestination e) ev2.
Proof.
  intros source dest fileMapping order1 order2 w0 w1 n1 ev1 Hr1 Hr2 Hrun HF.
  split; [intros; by eapply copyFile_skips_existing|].
  split; [intros; by eapply copyFile_creates_absent|].
  split; [by apply copyLoop_count in Hrun as [_ ?]|].
  apply copyLoop_noop. intros f Hin.
  eapply copyLoop_settles; [exact Hrun|exact HF|].
  unfold rangeOrder in *. rewrite Hr1, <- Hr2. exact Hin.
Qed.

End Idempotence.

(** ** The in-memory environment satisfies the laws; the scenarios *)

Lemma Mem_stat_present (w : Mem.World) (p : string) :
  os_Stat w p ≠ StatNotExist ↔ is_Some (w !! p).
Proof.
  simpl. destruct (w !! p); split; done.
Qed.

#[global] Instance Mem_os_laws : OSLaws Mem.World.
Proof.
  split.
  - intros w d p. rewrite !Mem_stat_present. intros Hp. simpl.
    destruct (w !! d) as [[?|]|]; simpl; try done;
      (destruct (decide (d = p)) as [->|Hne];
       [rewrite lookup_insert_eq; by eexists | by rewrite lookup_insert_ne]).
  - intros w q p. rewrite !Mem_stat_present. intros Hp. simpl.
    destruct (w !! q) as [[?|]|]; simpl; try done;
      (destruct (decide (q = p)) as [->|Hne];
       [rewrite lookup_insert_eq; by eexists | by rewrite lookup_insert_ne]).
  - intros w q h p. rewrite !Mem_stat_present. intros Hp. simpl.
    destruct (decide (q = p)) as [->|Hne];
      [rewrite lookup_insert_eq; by eexists | by rewrite lookup_insert_ne].
  - intros w p w'. simpl. destruct (w !! p) as [[?|]|] eqn:E; intros H;
      simplify_eq; apply Mem_stat_present; rewrite lookup_insert_eq; by eexists.
Qed.

(** Scenarios 1 to 4 and 6 of the specification. *)
Example scenario_build_resolve_copy :
  (buildFileMapping (RT := Mem.runtime false) Mem.archive "files.xml").1
  = Ok {["1" := mkFile "1" Mem.hash1 "ab.txt" ""]}
  ∧ (processActivitiesFolder (RT := Mem.runtime false) Mem.archive "activities"
       {["1" := mkFile "1" Mem.hash1 "ab.txt" ""]}).1
    = ({["1" := Mem.record1]}, None)
  ∧ copyFiles (RT := Mem.runtime false) Mem.archive "/out" [Mem.record1] ∅
    = (Some (Mem.afterFirstRun, 1), Mem.firstRunEvents)
  ∧ (copyFiles (RT := Mem.runtime false) Mem.archive "/out" [Mem.record1]
       Mem.afterFirstRun).1
    = Some (Mem.afterFirstRun, 0)
  ∧ (copyFiles (RT := Mem.runtime false) Mem.archive "/out"
       [mkFile "9" "x" "n.txt" ""; Mem.record1] ∅).1
    = Some (Mem.afterFirstRun, 1).
Proof. repeat split; vm_compute; reflexivity. Qed.

Lemma C3_witness :
  rangeOrder {["1" := Mem.record1]} [Mem.record1]
  ∧ copyFiles (RT := Mem.runtime false) Mem.archive "/out" [Mem.record1] ∅
    = (Some (Mem.afterFirstRun, 1), Mem.firstRunEvents)
  ∧ ∃ ev2,
      copyFiles (RT := Mem.runtime false) Mem.archive "/out" [Mem.record1]
        Mem.afterFirstRun
      = (Some (Mem.afterFirstRun, 0), ev2)
      ∧ Forall (fun e => ¬ writesDestination e) ev2.
Proof.
  assert (Hr : rangeOrder {["1" := Mem.record1]} [Mem.record1]).
  { unfold rangeOrder. rewrite map_to_list_singleton. reflexivity. }
  assert (Hrun : copyFiles (RT := Mem.runtime false) Mem.archive "/out"
                   [Mem.record1] ∅
                 = (Some (Mem.afterFirstRun, 1), Mem.firstRunEvents))
    by (vm_compute; reflexivity).
  assert (HF : Forall (fun e => ¬ reportsCreationError e) Mem.firstRunEvents).
  { apply (bool_decide_unpack _). vm_compute. exact I. }
  split; [exact Hr|]. split; [exact Hrun|].
  exact (proj2 (proj2 (proj2
    (C3_copyFiles_is_idempotent (RT := Mem.runtime false) Mem.archive "/out"
       {["1" := Mem.record1]} [Mem.record1] [Mem.record1] ∅
       Mem.afterFirstRun 1 Mem.firstRunEvents Hr Hr Hrun HF)))).
Defined.

Lemma C5_witness :
  String.length (ContentHash (mkFile "9" "x" "n.txt" "")) < 2
  ∧ copyFile (RT := Mem.runtime false) Mem.archive "/out"
      (∅ : Mem.World) (mkFile "9" "x" "n.txt" "")
    = (Some (∅, false),
       [Printf "Warning: Invalid ContentHash for file ID %s\n" ["9"]]).
Proof.
  assert (Hs : String.length (ContentHash (mkFile "9" "x" "n.txt" "")) < 2)
    by (simpl; lia).
  split; [exact Hs|].
  exact (proj1 (C5_short_hash_is_skipped_without_effect
                  (RT := Mem.runtime false) Mem.archive "/out"
                  (∅ : Mem.World) (mkFile "9" "x" "n.txt" "") Hs)).
Defined.

Lemma C9_witness :
  copyFile (RT := Mem.runtime false) Mem.archive "/out" (∅ : Mem.World) Mem.record1
  = (Some (Mem.afterFirstRun, true), Mem.firstRunEvents)
  ∧ destinationPath (RT := Mem.runtime false) "/out" Mem.record1
    = filepath_Join (Runtime := Mem.runtime false) ["/out"; "MyFolder"; "ab.txt"]
  ∧ filepath_Join (Runtime := Mem.runtime false) ["/out"; "MyFolder"; "ab.txt"]
    = "/out/MyFolder/ab.txt".
Proof.
  assert (Hc : copyFile (RT := Mem.runtime false) Mem.archive "/out"
                 (∅ : Mem.World) Mem.record1
               = (Some (Mem.afterFirstRun, true), Mem.firstRunEvents))
    by (vm_compute; reflexivity).
  split; [exact Hc|].
  destruct (C9_paths_of_a_materialized_record (RT := Mem.runtime false)
              Mem.archive "/out" ∅ Mem.afterFirstRun Mem.record1
              Mem.firstRunEvents Hc)
    as (sourceFile & dirEvents & w1 & w2 & _ & _ & _ & _ & _ & Hd).
  split; [exact Hd | reflexivity].
Defined.

Lemma Flaky_stat_present (w : Flaky.World) (p : string) :
  os_Stat w p ≠ StatNotExist ↔ is_Some (w.1 !! p).
Proof. destruct w as [m bad]. simpl. destruct (m !! p); split; done. Qed.

(** The operating system with passing failures removes nothing either. *)
#[global] Instance Flaky_os_laws : OSLaws Flaky.World.
Proof.
  split.
  - intros [m bad] d p. rewrite !Flaky_stat_present. intros Hp. simpl in *.
    destruct (m !! d) as [[?|]|]; simpl; try done;
      (destruct (decide (d = p)) as [->|Hne];
       [rewrite lookup_insert_eq; by eexists | by rewrite lookup_insert_ne]).
  - intros [m bad] q p. rewrite !Flaky_stat_present. intros Hp. simpl in *.
    destruct (decide (q ∈ bad)); simpl; [done|].
    destruct (m !! q) as [[?|]|]; simpl; try done;
      (destruct (decide (q = p)) as [->|Hne];
       [rewrite lookup_insert_eq; by eexists | by rewrite lookup_insert_ne]).
  - intros [m bad] q h p. rewrite !Flaky_stat_present. intros Hp. simpl in *.
    destruct (decide (q = p)) as [->|Hne];
      [rewrite lookup_insert_eq; by eexists | by rewrite lookup_insert_ne].
  - intros [m bad] p w'. simpl.
    destruct (decide (p ∈ bad)); simpl; [done|].
    destruct (m !! p) as [[?|]|] eqn:E; simpl; intros H; simplify_eq;
      apply Flaky_stat_present; simpl; rewrite lookup_insert_eq; by eexists.
Qed.

(** The claim as worded fails: when [os.Create] fails for one record in the
    first run (the run prints the error and goes on), the second run over
    the same mapping creates that file and returns 1, so the two runs do
    not leave the same file set and the second count is not zero. *)
Lemma C3_counterexample_retry_after_failed_create :
  rangeOrder Mem.twoRecords Flaky.order
  ∧ (copyFiles (RT := Mem.runtime false) Flaky.payloads "/out" Flaky.order
       ((∅, ["/out/y.txt"]) : Flaky.World)).1
    = Some (Flaky.afterRun1, 1)
  ∧ (copyFiles (RT := Mem.runtime false) Flaky.payloads "/out" Flaky.order
       Flaky.afterRun1).1
    = Some (Flaky.afterRun2, 1)
  ∧ Printf "Error creating file %s: %v\n" ["/out/y.txt"; "permission denied"]
      ∈ (copyFiles (RT := Mem.runtime false) Flaky.payloads "/out" Flaky.order
           ((∅, ["/out/y.txt"]) : Flaky.World)).2
  ∧ os_Stat Flaky.afterRun1 "/out/y.txt" = StatNotExist
  ∧ os_Stat Flaky.afterRun2 "/out/y.txt" = StatOk
  ∧ Flaky.afterRun2 ≠ Flaky.afterRun1.
Proof.
  split.
  { unfold rangeOrder. vm_compute. reflexivity. }
  split; [vm_compute; reflexivity|].
  split; [vm_compute; reflexivity|].
  split; [apply (bool_decide_unpack _); vm_compute; exact I|].
  split; [vm_compute; reflexivity|].
  split; [vm_compute; reflexivity|].
  intros E.
  assert (H : os_Stat Flaky.afterRun2 "/out/y.txt" = StatOk)
    by (vm_compute; reflexivity).
  rewrite E in H. vm_compute in H. discriminate.
Qed.

(** * Further properties *)

(** ** Name sanitizer *)

Lemma string_length_chars (s : string) :
  String.length s = length (list_ascii_of_string s).
Proof. induction s as [|c r IH]; simpl; [done|]. by rewrite IH. Qed.

Lemma filter_id_iff_Forall {A} (P : A → Prop) `{!∀ x, Decision (P x)} (l : list A) :
  filter P l = l ↔ Forall P l.
Proof.
  split.
  - intros E. rewrite <- E. apply Forall_forall. intros x Hx.
    by apply list_elem_of_filter in Hx as [? _].
  - induction 1 as [|x l Hx _ IH]; [done|].
    by rewrite filter_cons_True, IH.
Qed.

(** X1: the names that the sanitizer leaves alone are exactly those without
    a forbidden character; every other name gets strictly shorter, and no
    name gets longer. *)
Theorem X1_sanitize_fixed_points_and_length :
  ∀ s : string,
    (sanitizeFileName s = s
     ↔ Forall (fun c => ¬ specForbiddenChar c) (list_ascii_of_string s))
    ∧ String.length (sanitizeFileName s) ≤ String.length s
    ∧ (sanitizeFileName s ≠ s →
       String.length (sanitizeFileName s) < String.length s).
Proof.
  intros s.
  assert (Hfix : sanitizeFileName s = s
     ↔ Forall (fun c => ¬ specForbiddenChar c) (list_ascii_of_string s)).
  { rewrite <- filter_id_iff_Forall, <- sanitize_chars. split.
    - by intros ->.
    - apply string_eq_chars. }
  split; [exact Hfix|].
  rewrite !string_length_chars, sanitize_chars. split; [apply length_filter|].
  intros Hne.
  destruct (decide (Forall (fun c => ¬ specForbiddenChar c)
                      (list_ascii_of_string s))) as [HF|HF].
  { by apply Hfix in HF. }
  apply not_Forall_Exists in HF; [|apply _].
  apply Exists_exists in HF as (c & Hin & Hc).
  by apply (length_filter_lt _ _ c).
Qed.

Lemma X1_witness :
  sanitizeFileName "a/b.txt" ≠ "a/b.txt"
  ∧ String.length (sanitizeFileName "a/b.txt") < String.length "a/b.txt".
Proof.
  assert (H : sanitizeFileName "a/b.txt" ≠ "a/b.txt") by (vm_compute; discriminate).
  split; [exact H|].
  exact (proj2 (proj2 (X1_sanitize_fixed_points_and_length "a/b.txt")) H).
Defined.

(** ** Primary mapping builder *)

Section MoreBuilder.

Context {Handle : Type} {RT : Runtime Handle}.

Implicit Types (m : gmap string File) (f : File) (files : list File).

Lemma addFile_events m file :
  (addFile m file).2
  = if decide (keptEntry (sanitizedEntry file))
    then logDebug
           "Added file to mapping: ID=%s, ContentHash=%s, Filename=%s\n"
           [ID file; ContentHash file; sanitizeFileName (Filename file)]
    else [].
Proof.
  unfold addFile. fold (sanitizedEntry file).
  destruct (decide (keptEntry (sanitizedEntry file))) as [Hk|Hk].
  - apply addFile_guard in Hk. rewrite Hk. done.
  - destruct (_ || _) eqn:E; [done|]. by apply addFile_guard in E.
Qed.

Lemma forEach_addFile_events files m :
  (forEach addFile files m).2
  = if debug then addedLine <$> filter keptEntry (sanitizedEntry <$> files)
    else [].
Proof.
  revert m. induction files as [|file rest IH]; intros m.
  { simpl. by destruct debug. }
  rewrite forEach_cons_snd, IH, addFile_events, fmap_cons.
  destruct (decide (keptEntry (sanitizedEntry file))) as [Hk|Hk].
  - rewrite (filter_cons_True keptEntry) by done.
    unfold logDebug. by destruct debug.
  - by rewrite (filter_cons_False keptEntry) by done.
Qed.

Lemma remove_dups_length_le {A} `{!EqDecision A} (l : list A) :
  length (remove_dups l) ≤ length l.
Proof.
  induction l as [|x l IH]; simpl; [done|].
  destruct (decide_rel elem_of x l); simpl; lia.
Qed.

Lemma forEach_addFile_dom files :
  dom (forEach addFile files ∅).1
  = list_to_set (ID <$> filter keptEntry (sanitizedEntry <$> files)).
Proof.
  apply set_eq. intros id.
  rewrite elem_of_dom, forEach_addFile_lookup, lookup_empty,
    elem_of_list_to_set, list_elem_of_fmap.
  split.
  - intros [f Hf]. destruct (specLookup files id) as [f'|] eqn:Hl; [|discriminate].
    unfold specLookup in Hl. apply last_Some_elem_of in Hl.
    apply list_elem_of_filter in Hl as [Hid Hin]. by exists f'.
  - intros (f & -> & Hin).
    assert (Hs : is_Some (specLookup files (ID f))).
    { unfold specLookup. apply last_is_Some. intros Hnil.
      assert (Hmem : f ∈ filter (fun file => ID file = ID f)
                (filter keptEntry (sanitizedEntry <$> files)))
        by (by apply list_elem_of_filter).
      rewrite Hnil in Hmem. by apply not_elem_of_nil in Hmem. }
    destruct Hs as [f' ->]. by eexists.
Qed.

(** X2: when files.xml opens and decodes, the events of [buildFileMapping]
    are the open of the document followed, in debug mode, by one line per
    entry that passes the guard, in document order and with the sanitized
    filename (an id that occurs twice is logged twice); without debug
    nothing is printed. *)
Theorem X2_buildFileMapping_log :
  ∀ (source : FS Handle) (path : string) (h : Handle) (files : list File),
    Open source path = Ok h →
    parseFilesXML h = Ok files →
    (buildFileMapping source path).2
    = SourceOpen path
      :: (if debug
          then addedLine <$> filter keptEntry (sanitizedEntry <$> files)
          else []).
Proof.
  intros source path h files Ho Hp.
  rewrite (buildFileMapping_ok source path h files Ho Hp). simpl.
  by rewrite forEach_addFile_events.
Qed.

(** X3: the mapping has as many records as there are distinct ids among
    the entries that pass the guard, hence at most as many as the document
    has entries. *)
Theorem X3_mapping_size :
  ∀ (source : FS Handle) (path : string) (h : Handle) (files : list File),
    Open source path = Ok h →
    parseFilesXML h = Ok files →
    ∃ m : gmap string File,
      (buildFileMapping source path).1 = Ok m
      ∧ size m
        = length (remove_dups
                    (ID <$> filter keptEntry (sanitizedEntry <$> files)))
      ∧ size m ≤ length files.
Proof.
  intros source path h files Ho Hp.
  rewrite (buildFileMapping_ok source path h files Ho Hp).
  eexists. split; [done|].
  assert (E : size (forEach addFile files ∅).1
    = length (remove_dups (ID <$> filter keptEntry (sanitizedEntry <$> files)))).
  { rewrite <- size_dom, forEach_addFile_dom.
    rewrite <- (size_list_to_set (C := gset string)
                  (remove_dups (ID <$> filter keptEntry (sanitizedEntry <$> files))))
      by apply NoDup_remove_dups.
    f_equal. apply set_eq. intros id.
    by rewrite !elem_of_list_to_set, elem_of_remove_dups. }
  split; [exact E|]. rewrite E.
  etrans; [apply remove_dups_length_le|].
  rewrite length_fmap. etrans; [apply length_filter|]. by rewrite length_fmap.
Qed.

End MoreBuilder.

Lemma X2_witness :
  Open Mem.archive "files.xml"
  = Ok (Mem.FilesXML [mkFile "1" Mem.hash1 "a/b.txt" ""])
  ∧ (buildFileMapping (RT := Mem.runtime true) Mem.archive "files.xml").2
    = [SourceOpen "files.xml"; addedLine (mkFile "1" Mem.hash1 "ab.txt" "")].
Proof.
  assert (Ho : Open Mem.archive "files.xml"
               = Ok (Mem.FilesXML [mkFile "1" Mem.hash1 "a/b.txt" ""]))
    by (vm_compute; reflexivity).
  split; [exact Ho|].
  exact (X2_buildFileMapping_log (RT := Mem.runtime true) Mem.archive
           "files.xml" _ _ Ho eq_refl).
Defined.

Lemma X3_witness :
  Open Mem.archive "files.xml"
  = Ok (Mem.FilesXML [mkFile "1" Mem.hash1 "a/b.txt" ""])
  ∧ ∃ m : gmap string File,
      (buildFileMapping (RT := Mem.runtime false) Mem.archive "files.xml").1 = Ok m
      ∧ size m ≤ 1.
Proof.
  assert (Ho : Open Mem.archive "files.xml"
               = Ok (Mem.FilesXML [mkFile "1" Mem.hash1 "a/b.txt" ""]))
    by (vm_compute; reflexivity).
  split; [exact Ho|].
  destruct (X3_mapping_size (RT := Mem.runtime false) Mem.archive
              "files.xml" _ _ Ho eq_refl) as (m & Hm & _ & Hle).
  exists m. split; [exact Hm | exact Hle].
Defined.

(** ** Folder resolver *)

Section MoreResolver.

Context {Handle : Type} {RT : Runtime Handle}.

Implicit Types (m : gmap string File) (f : File) (dirs : list string).

Lemma processDir_noprefix source activitiesFolder m dir :
  String.prefix "folder_" dir = false →
  processDir source activitiesFolder m dir = (m, []).
Proof. intros Hp. unfold processDir. by rewrite Hp. Qed.

Lemma forEach_processDir_prefixed source activitiesFolder dirs m :
  forEach (processDir source activitiesFolder) dirs m
  = forEach (processDir source activitiesFolder)
      (filter (fun d => String.prefix "folder_" d = true) dirs) m.
Proof.
  revert m. induction dirs as [|d rest IH]; intros m; [done|].
  destruct (String.prefix "folder_" d) eqn:Hp.
  - rewrite filter_cons_True by done. simpl.
    destruct (processDir source activitiesFolder m d) as [m1 ev1].
    by rewrite IH.
  - rewrite filter_cons_False by (by rewrite Hp).
    simpl. rewrite processDir_noprefix by done. rewrite IH.
    by destruct (forEach _ _ m).
Qed.

Lemma forEach_processDir_good source activitiesFolder dirs m :
  (forEach (processDir source activitiesFolder) dirs m).1
  = (forEach (processDir source activitiesFolder)
       (filter (fun d => is_Some (bundleOf source activitiesFolder d)) dirs) m).1.
Proof.
  revert m. induction dirs as [|d rest IH]; intros m; [done|].
  destruct (bundleOf source activitiesFolder d) as [b|] eqn:Hb.
  - rewrite filter_cons_True by (by rewrite Hb).
    by rewrite !forEach_cons_fst, IH.
  - rewrite filter_cons_False by (rewrite Hb; by intros [? ?]).
    rewrite forEach_cons_fst, processDir_map, Hb. apply IH.
Qed.

(** X4: an entry of the activities folder whose name does not start with
    [folder_] causes no call and no output and changes nothing: the run
    over a listing is, events included, the run over its [folder_]
    entries; and a bundle whose documents do not open or decode leaves the
    mapping as it is, so the mapping after the run is that of the run over
    the bundles that open and decode. *)
Theorem X4_foreign_entries_and_broken_bundles_are_passed_over :
  ∀ (source : FS Handle) (activitiesFolder : string) (dirs : list string)
    (m : gmap string File),
    forEach (processDir source activitiesFolder) dirs m
    = forEach (processDir source activitiesFolder)
        (filter (fun d => String.prefix "folder_" d = true) dirs) m
    ∧ (forEach (processDir source activitiesFolder) dirs m).1
      = (forEach (processDir source activitiesFolder)
           (filter (fun d => is_Some (bundleOf source activitiesFolder d)) dirs)
           m).1.
Proof.
  intros. split;
    [apply forEach_processDir_prefixed | apply forEach_processDir_good].
Qed.

Lemma withFolder_fmap_twice (o : option File) n1 n2 :
  (fun f => withFolder f n2) <$> ((fun f => withFolder f n1) <$> o)
  = (fun f => withFolder f n2) <$> o.
Proof. by destruct o. Qed.

Lemma forEach_processDir_lookup source activitiesFolder dirs m id :
  (forEach (processDir source activitiesFolder) dirs m).1 !! id
  = match lastFolder (goodBundles source activitiesFolder dirs) id with
    | Some name => (fun f => withFolder f name) <$> m !! id
    | None => m !! id
    end.
Proof.
  unfold lastFolder, goodBundles. revert m.
  induction dirs as [|d rest IH]; intros m; [done|].
  rewrite forEach_cons_fst, IH, processDir_lookup. simpl.
  destruct (bundleOf source activitiesFolder d) as [[name ids]|]; [|done].
  destruct (decide (id ∈ ids)) as [Hin|Hin].
  - rewrite filter_cons_True by done. rewrite last_cons.
    destruct (last _) as [[n' ids']|]; simpl; [|done].
    apply withFolder_fmap_twice.
  - by rewrite filter_cons_False by done.
Qed.

Lemma processActivitiesFolder_lookup source activitiesFolder dirs m id :
  ReadDir source activitiesFolder = Ok dirs →
  (processActivitiesFolder source activitiesFolder m).1.1 !! id
  = match lastFolder (goodBundles source activitiesFolder dirs) id with
    | Some name => (fun f => withFolder f name) <$> m !! id
    | None => m !! id
    end.
Proof.
  intros Hr. rewrite processActivitiesFolder_map, Hr.
  apply forEach_processDir_lookup.
Qed.

(** X5: when an id is referenced by several bundles, the last one in the
    listing wins: after the run a record carries the folder name of the
    last bundle (among those that open and decode) that references it, and
    a record that no bundle references is as before. *)
Theorem X5_last_bundle_wins :
  ∀ (source : FS Handle) (activitiesFolder : string) (dirs : list string)
    (m : gmap string File) (id : string),
    ReadDir source activitiesFolder = Ok dirs →
    (processActivitiesFolder source activitiesFolder m).1.1 !! id
    = match lastFolder (goodBundles source activitiesFolder dirs) id with
      | Some name => (fun f => withFolder f name) <$> m !! id
      | None => m !! id
      end.
Proof. intros. by apply processActivitiesFolder_lookup. Qed.

(** X6: folder resolution is idempotent on the mapping: resolving a
    mapping that was already resolved against the same store changes
    nothing. *)
Theorem X6_resolution_is_idempotent :
  ∀ (source : FS Handle) (activitiesFolder : string) (m : gmap string File),
    (processActivitiesFolder source activitiesFolder
       (processActivitiesFolder source activitiesFolder m).1.1).1.1
    = (processActivitiesFolder source activitiesFolder m).1.1.
Proof.
  intros source activitiesFolder m.
  destruct (ReadDir source activitiesFolder) as [dirs|err] eqn:Hr.
  - apply map_eq. intros id.
    rewrite !(processActivitiesFolder_lookup _ _ dirs) by done.
    destruct (lastFolder _ id); [|done]. apply withFolder_fmap_twice.
  - by rewrite !processActivitiesFolder_map, Hr.
Qed.

Lemma bundleOf_sanitized source activitiesFolder dir name ids :
  bundleOf source activitiesFolder dir = Some (name, ids) →
  sanitizeFileName name = name.
Proof.
  unfold bundleOf. intros H. repeat case_match; simplify_eq.
  apply sanitize_idem.
Qed.

Lemma lastFolder_sanitized source activitiesFolder dirs id name :
  lastFolder (goodBundles source activitiesFolder dirs) id = Some name →
  sanitizeFileName name = name.
Proof.
  unfold lastFolder, goodBundles. intros H.
  destruct (last _) as [[n ids]|] eqn:Hl; simplify_eq/=.
  apply last_Some_elem_of, list_elem_of_filter in Hl as [_ Hin].
  apply list_elem_of_omap in Hin as (d & _ & Hb).
  by eapply bundleOf_sanitized.
Qed.

(** X7: after the run the folder of a record is either the one it had or a
    sanitized name: it is its own sanitization and holds no forbidden
    character, in particular no slash and no backslash. *)
Theorem X7_assigned_folders_are_sanitized :
  ∀ (source : FS Handle) (activitiesFolder : string) (m : gmap string File)
    (id : string) (f' : File),
    (processActivitiesFolder source activitiesFolder m).1.1 !! id = Some f' →
    ∃ f, m !! id = Some f
      ∧ (Folder f' = Folder f
         ∨ (sanitizeFileName (Folder f') = Folder f'
            ∧ Forall (fun c => ¬ specForbiddenChar c)
                (list_ascii_of_string (Folder f')))).
Proof.
  intros source activitiesFolder m id f' Hf'.
  destruct (ReadDir source activitiesFolder) as [dirs|err] eqn:Hr.
  - rewrite (processActivitiesFolder_lookup _ _ dirs) in Hf' by done.
    destruct (lastFolder _ id) as [name|] eqn:Hl.
    + destruct (m !! id) as [f|]; simplify_eq/=. exists f. split; [done|].
      right. apply lastFolder_sanitized in Hl. split; [done|].
      rewrite <- Hl. apply sanitize_clean.
    + exists f'. by split; [|left].
  - rewrite processActivitiesFolder_map, Hr in Hf'. exists f'. by split; [|left].
Qed.

Lemma resolved_record_guarded :
  ∀ (source source' : FS Handle) (path activitiesFolder : string)
    (m : gmap string File) (ev : list Event) (id : string) (f : File),
    buildFileMapping source path = (Ok m, ev) →
    (processActivitiesFolder source' activitiesFolder m).1.1 !! id = Some f →
    ID f = id ∧ ID f ≠ "" ∧ ContentHash f ≠ "" ∧ Filename f ≠ "."
    ∧ sanitizeFileName (Filename f) = Filename f.
Proof.
  intros source source' path activitiesFolder m ev id f Hb Hf.
  pose proof (processActivitiesFolder_framed source' activitiesFolder m id) as Hfr.
  rewrite Hf in Hfr. inversion Hfr as [f0 ? (H1 & H2 & H3) Hm0|]; subst.
  symmetry in Hm0.
  apply buildFileMapping_inv in Hb as (h & files & _ & _ & ->).
  rewrite forEach_addFile_lookup, lookup_empty in Hm0.
  destruct (specLookup files id) as [f1|] eqn:Hl; [|done].
  injection Hm0 as ->.
  apply specLookup_Some in Hl as (Hid & (K1 & K2 & K3) & file & _ & ->).
  rewrite H1, H2, H3. simpl in *. repeat split; try done.
  apply sanitize_idem.
Qed.


(** X8: the guard of the builder survives folder resolution: in the mapping
    that [main] hands to [copyFiles], every record is stored under its own
    id, has a non-empty id and content hash, and a sanitized filename other
    than the placeholder. *)
Theorem X8_guard_survives_resolution :
  ∀ (source source' : FS Handle) (path activitiesFolder : string)
    (m : gmap string File) (ev : list Event) (id : string) (f : File),
    buildFileMapping source path = (Ok m, ev) →
    (processActivitiesFolder source' activitiesFolder m).1.1 !! id = Some f →
    ID f = id ∧ ID f ≠ "" ∧ ContentHash f ≠ "" ∧ Filename f ≠ "."
    ∧ sanitizeFileName (Filename f) = Filename f.
Proof. exact resolved_record_guarded. Qed.

End MoreResolver.

Lemma X5_witness :
  ReadDir MemHost.colliding "activities" = Ok ["folder_5"; "folder_6"]
  ∧ (processActivitiesFolder (RT := Mem.runtime false) MemHost.colliding
       "activities" Mem.twoRecords).1.1 !! "1"
    = Some (mkFile "1" "aa11" "x.txt" "BC").
Proof.
  assert (Hr : ReadDir MemHost.colliding "activities"
               = Ok ["folder_5"; "folder_6"]) by reflexivity.
  split; [exact Hr|].
  rewrite (X5_last_bundle_wins (RT := Mem.runtime false) MemHost.colliding
             "activities" _ Mem.twoRecords "1" Hr).
  vm_compute. reflexivity.
Defined.

Lemma X7_witness :
  (processActivitiesFolder (RT := Mem.runtime false) MemHost.colliding
     "activities" Mem.twoRecords).1.1 !! "1"
  = Some (mkFile "1" "aa11" "x.txt" "BC")
  ∧ ∃ f, Mem.twoRecords !! "1" = Some f
      ∧ (Folder (mkFile "1" "aa11" "x.txt" "BC") = Folder f
         ∨ (sanitizeFileName (Folder (mkFile "1" "aa11" "x.txt" "BC"))
            = Folder (mkFile "1" "aa11" "x.txt" "BC")
            ∧ Forall (fun c => ¬ specForbiddenChar c)
                (list_ascii_of_string (Folder (mkFile "1" "aa11" "x.txt" "BC"))))).
Proof.
  assert (H : (processActivitiesFolder (RT := Mem.runtime false)
                 MemHost.colliding "activities" Mem.twoRecords).1.1 !! "1"
              = Some (mkFile "1" "aa11" "x.txt" "BC"))
    by (vm_compute; reflexivity).
  split; [exact H|].
  exact (X7_assigned_folders_are_sanitized (RT := Mem.runtime false)
           MemHost.colliding "activities" Mem.twoRecords "1" _ H).
Defined.

Lemma X8_witness :
  buildFileMapping (RT := Mem.runtime false) Mem.archive "files.xml"
  = (Ok {["1" := mkFile "1" Mem.hash1 "ab.txt" ""]}, [SourceOpen "files.xml"])
  ∧ (processActivitiesFolder (RT := Mem.runtime false) Mem.archive "activities"
       {["1" := mkFile "1" Mem.hash1 "ab.txt" ""]}).1.1 !! "1"
    = Some Mem.record1
  ∧ Filename Mem.record1 ≠ ".".
Proof.
  assert (Hb : buildFileMapping (RT := Mem.runtime false) Mem.archive "files.xml"
    = (Ok {["1" := mkFile "1" Mem.hash1 "ab.txt" ""]}, [SourceOpen "files.xml"]))
    by (vm_compute; reflexivity).
  assert (Hf : (processActivitiesFolder (RT := Mem.runtime false) Mem.archive
                  "activities" {["1" := mkFile "1" Mem.hash1 "ab.txt" ""]}).1.1 !! "1"
               = Some Mem.record1) by (vm_compute; reflexivity).
  split; [exact Hb|]. split; [exact Hf|].
  exact (proj1 (proj2 (proj2 (proj2
    (X8_guard_survives_resolution (RT := Mem.runtime false) Mem.archive
       Mem.archive "files.xml" "activities" _ _ "1" Mem.record1 Hb Hf))))).
Defined.

(** ** Content materializer *)

Section MoreMaterializer.

Context {Handle : Type} {RT : Runtime Handle} {World : Type} {OSI : OS Handle World}.

Implicit Types (w : World) (f g : File) (source : FS Handle) (ev : list Event).

Lemma copyLoop_skip_noop source dest before after w n f :
  (∀ w', ∃ ev, copyFile source dest w' f = (Some (w', false), ev)) →
  (copyLoop source dest (before ++ f :: after) w n).1
  = (copyLoop source dest (before ++ after) w n).1.
Proof.
  intros Hs. revert w n.
  induction before as [|g rest IH]; intros w n; simpl.
  - destruct (Hs w) as [ev ->].
    by destruct (copyLoop source dest after w n).
  - destruct (copyFile source dest w g) as [[[w1 copied]|] ev]; [|done].
    specialize (IH w1 (if copied then S n else n)).
    destruct (copyLoop source dest (rest ++ f :: after) w1 _).
    destruct (copyLoop source dest (rest ++ after) w1 _). done.
Qed.

Lemma copyFile_missing_payload source dest w f err :
  2 ≤ String.length (ContentHash f) →
  Open source (sourceFilePath f) = Err err →
  copyFile source dest w f
  = (Some (w, false),
     [SourceOpen (sourceFilePath f);
      Printf "Warning: File %s not found in source folder\n" [sourceFilePath f]]).
Proof.
  intros Hl Ho. unfold copyFile.
  rewrite decide_False, sliceTo_ok by lia.
  unfold sourceFilePath in Ho. by rewrite Ho.
Qed.

(** X9: a record whose payload does not open in the store is passed over
    after the failed open: the warning is printed, the destination is not
    even looked at, its state and the counter are as before, and the run
    ends as if the record were not in the mapping. *)
Theorem X9_missing_payload_is_skipped :
  ∀ (source : FS Handle) (destinationFolder : string) (w : World)
    (f : File) (err : error),
    2 ≤ String.length (ContentHash f) →
    Open source (sourceFilePath f) = Err err →
    copyFile source destinationFolder w f
    = (Some (w, false),
       [SourceOpen (sourceFilePath f);
        Printf "Warning: File %s not found in source folder\n"
          [sourceFilePath f]])
    ∧ (∀ before after w0 n,
         (copyLoop source destinationFolder (before ++ f :: after) w0 n).1
         = (copyLoop source destinationFolder (before ++ after) w0 n).1).
Proof.
  intros source dest w f err Hl Ho.
  split; [by eapply copyFile_missing_payload|].
  intros. apply copyLoop_skip_noop. intros w'. eexists.
  by eapply copyFile_missing_payload.
Qed.

(** The calls of one iteration that write are the three the source shows,
    on the destination of the record, and only for a usable record. *)
Lemma copyFile_writes source dest w f r ev e :
  copyFile source dest w f = (r, ev) →
  e ∈ ev → writesDestination e →
  usable source f
  ∧ (e = OsMkdirAll (filepath_Dir (destinationPath dest f))
     ∨ e = OsCreate (destinationPath dest f)
     ∨ e = IoCopy (destinationPath dest f)).
Proof.
  intros H Hin Hw. unfold copyFile, ensureDir in H.
  destruct (decide (String.length (ContentHash f) < 2)) as [Hs|Hl].
  { simplify_eq. apply list_elem_of_singleton in Hin as ->. destruct Hw. }
  rewrite (sliceTo_ok (ContentHash f) 2) in H by lia.
  assert (Hu : ∀ h, Open source (sourceFilePath f) = Ok h → usable source f).
  { intros h Hh. unfold usable. rewrite Hh. split; [lia|done]. }
  unfold sourceFilePath in Hu.
  destruct (Open source _) as [sourceFile|err] eqn:Ho.
  - split; [by eapply Hu|].
    repeat case_match; simplify_eq;
      rewrite ?elem_of_app, ?elem_of_cons, ?elem_of_nil in Hin;
      destruct_or?; simplify_eq; try destruct Hw; eauto.
  - simplify_eq.
    rewrite ?elem_of_app, ?elem_of_cons, ?elem_of_nil in Hin;
      destruct_or?; simplify_eq; destruct Hw.
Qed.

Lemma copyLoop_writes source dest files w n r ev e :
  copyLoop source dest files w n = (r, ev) →
  e ∈ ev → writesDestination e →
  ∃ f, f ∈ files ∧ usable source f
    ∧ (e = OsMkdirAll (filepath_Dir (destinationPath dest f))
       ∨ e = OsCreate (destinationPath dest f)
       ∨ e = IoCopy (destinationPath dest f)).
Proof.
  revert w n r ev. induction files as [|g rest IH]; intros w n r ev H Hin Hw.
  { simpl in H. simplify_eq. by apply not_elem_of_nil in Hin. }
  simpl in H.
  destruct (copyFile source dest w g) as [[[w1 copied]|] ev0] eqn:Hg.
  - destruct (copyLoop source dest rest w1 _) as [r1 ev1] eqn:Hl.
    simplify_eq. apply elem_of_app in Hin as [Hin|Hin].
    + exists g. split; [left|]. by eapply copyFile_writes.
    + destruct (IH _ _ _ _ Hl Hin Hw) as (f & Hf & Hrest).
      exists f. split; [by right|done].
  - simplify_eq. exists g. split; [left|]. by eapply copyFile_writes.
Qed.

(** X10: a run writes nowhere else than at the destinations of its
    records: every directory it creates is the directory of the destination
    path of a usable record of the mapping, and every file it creates or
    copies into is such a destination path. *)
Theorem X10_writes_only_at_record_destinations :
  ∀ (source : FS Handle) (destinationFolder : string) (order : list File)
    (w : World) (e : Event),
    e ∈ (copyFiles source destinationFolder order w).2 →
    writesDestination e →
    ∃ f, f ∈ order ∧ usable source f
      ∧ (e = OsMkdirAll (filepath_Dir (destinationPath destinationFolder f))
         ∨ e = OsCreate (destinationPath destinationFolder f)
         ∨ e = IoCopy (destinationPath destinationFolder f)).
Proof.
  intros source dest order w e Hin Hw. unfold copyFiles in Hin.
  destruct (copyLoop source dest order w 0) as [r ev] eqn:Hl.
  by eapply copyLoop_writes.
Qed.

Lemma copyFile_copied_usable source dest w f w' ev :
  copyFile source dest w f = (Some (w', true), ev) → usable source f.
Proof.
  intros H.
  assert (Hin : OsCreate (destinationPath dest f) ∈ ev).
  { pose proof H as H'. unfold copyFile, ensureDir in H'.
    destruct (decide (String.length (ContentHash f) < 2)); [done|].
    rewrite (sliceTo_ok (ContentHash f) 2) in H' by lia.
    repeat case_match; simplify_eq;
      rewrite ?elem_of_app, ?elem_of_cons; eauto 10. }
  by destruct (copyFile_writes _ _ _ _ _ _ _ H Hin I) as [? _].
Qed.

Lemma copyLoop_count_usable source dest files w n w' n' ev :
  copyLoop source dest files w n = (Some (w', n'), ev) →
  n' ≤ n + length (filter (usable source) files).
Proof.
  revert w n ev. induction files as [|g rest IH]; intros w n ev H.
  { simpl in H. simplify_eq. simpl. lia. }
  simpl in H.
  destruct (copyFile source dest w g) as [[[w1 copied]|] ev0] eqn:Hg; [|done].
  destruct (copyLoop source dest rest w1 _) as [r1 ev1] eqn:Hl.
  simplify_eq. apply IH in Hl. destruct copied.
  - apply copyFile_copied_usable in Hg.
    rewrite filter_cons_True by done. simpl. lia.
  - pose proof (length_filter (usable source) rest).
    destruct (decide (usable source g)).
    + rewrite filter_cons_True by done. simpl. lia.
    + rewrite filter_cons_False by done. lia.
Qed.

(** X11: the number that [copyFiles] returns is at most the number of
    usable records (hash of two bytes or more, payload in the store), hence
    at most the number of records of the mapping. *)
Theorem X11_count_is_bounded_by_usable_records :
  ∀ (source : FS Handle) (destinationFolder : string) (order : list File)
    (w w' : World) (n : nat) (ev : list Event),
    copyFiles source destinationFolder order w = (Some (w', n), ev) →
    n ≤ length (filter (usable source) order)
    ∧ n ≤ length order.
Proof.
  intros source dest order w w' n ev H.
  apply copyLoop_count_usable in H. simpl in H. split; [done|].
  etrans; [exact H|]. apply length_filter.
Qed.

(** X12: when nothing is left to do for any record (each has a hash that is
    too short, a payload that does not open, or a destination that
    [os.Stat] does not report absent), [copyFiles] changes nothing, calls
    nothing that writes and returns zero, whatever the operating system. *)
Theorem X12_nothing_to_do_is_a_noop :
  ∀ (source : FS Handle) (destinationFolder : string) (order : list File)
    (w : World),
    (∀ f, f ∈ order → settled source destinationFolder w f) →
    ∃ ev,
      copyFiles source destinationFolder order w = (Some (w, 0), ev)
      ∧ Forall (fun e => ¬ writesDestination e) ev.
Proof. intros. by apply copyLoop_noop. Qed.

Context {LAWS : OSLaws World}.

Lemma copyLoop_keeps source dest files w n w' n' ev p :
  copyLoop source dest files w n = (Some (w', n'), ev) →
  os_Stat w p ≠ StatNotExist → os_Stat w' p ≠ StatNotExist.
Proof.
  revert w n ev. induction files as [|g rest IH]; intros w n ev H Hp.
  - simpl in H. by simplify_eq.
  - apply copyLoop_cons_inv in H as (w1 & copied & ev0 & ev1 & Hg & Hl & _).
    eapply IH; [exact Hl|]. by eapply copyFile_keeps.
Qed.

(** X13: on an operating system whose calls remove nothing, a run of
    [copyFiles] removes nothing: a path that [os.Stat] did not report
    absent before the run is not reported absent after it. *)
Theorem X13_a_run_removes_nothing :
  ∀ (source : FS Handle) (destinationFolder : string) (order : list File)
    (w w' : World) (n : nat) (ev : list Event) (p : string),
    copyFiles source destinationFolder order w = (Some (w', n), ev) →
    os_Stat w p ≠ StatNotExist →
    os_Stat w' p ≠ StatNotExist.
Proof. intros. by eapply copyLoop_keeps. Qed.

End MoreMaterializer.

Lemma X9_witness :
  2 ≤ String.length (ContentHash (mkFile "3" "zz99" "gone.txt" ""))
  ∧ Open Mem.archive
      (sourceFilePath (RT := Mem.runtime false) (mkFile "3" "zz99" "gone.txt" ""))
    = Err "file does not exist"
  ∧ copyFile (RT := Mem.runtime false) Mem.archive "/out" (∅ : Mem.World)
      (mkFile "3" "zz99" "gone.txt" "")
    = (Some (∅, false),
       [SourceOpen "files/zz/zz99";
        Printf "Warning: File %s not found in source folder\n" ["files/zz/zz99"]]).
Proof.
  assert (Hl : 2 ≤ String.length (ContentHash (mkFile "3" "zz99" "gone.txt" "")))
    by (simpl; lia).
  assert (Ho : Open Mem.archive
                 (sourceFilePath (RT := Mem.runtime false)
                    (mkFile "3" "zz99" "gone.txt" ""))
               = Err "file does not exist") by (vm_compute; reflexivity).
  split; [exact Hl|]. split; [exact Ho|].
  exact (proj1 (X9_missing_payload_is_skipped (RT := Mem.runtime false)
                  Mem.archive "/out" (∅ : Mem.World) _ _ Hl Ho)).
Defined.

Lemma X10_witness :
  OsCreate "/out/MyFolder/ab.txt"
    ∈ (copyFiles (RT := Mem.runtime false) Mem.archive "/out" [Mem.record1]
         (∅ : Mem.World)).2
  ∧ ∃ f, f ∈ [Mem.record1] ∧ usable (RT := Mem.runtime false) Mem.archive f.
Proof.
  assert (Hin : OsCreate "/out/MyFolder/ab.txt"
    ∈ (copyFiles (RT := Mem.runtime false) Mem.archive "/out" [Mem.record1]
         (∅ : Mem.World)).2).
  { apply (bool_decide_unpack _). vm_compute. exact I. }
  split; [exact Hin|].
  destruct (X10_writes_only_at_record_destinations (RT := Mem.runtime false)
              Mem.archive "/out" [Mem.record1] (∅ : Mem.World) _ Hin I)
    as (f & Hf & Hu & _).
  exists f. split; [exact Hf | exact Hu].
Defined.

Lemma X11_witness :
  copyFiles (RT := Mem.runtime false) Mem.archive "/out" [Mem.record1] ∅
  = (Some (Mem.afterFirstRun, 1), Mem.firstRunEvents)
  ∧ 1 ≤ length [Mem.record1].
Proof.
  assert (Hrun : copyFiles (RT := Mem.runtime false) Mem.archive "/out"
                   [Mem.record1] ∅
                 = (Some (Mem.afterFirstRun, 1), Mem.firstRunEvents))
    by (vm_compute; reflexivity).
  split; [exact Hrun|].
  exact (proj2 (X11_count_is_bounded_by_usable_records (RT := Mem.runtime false)
                  Mem.archive "/out" [Mem.record1] ∅ Mem.afterFirstRun 1
                  Mem.firstRunEvents Hrun)).
Defined.

Lemma X12_witness :
  (∀ f, f ∈ [Mem.record1] →
        settled (RT := Mem.runtime false) Mem.archive "/out" Mem.afterFirstRun f)
  ∧ ∃ ev,
      copyFiles (RT := Mem.runtime false) Mem.archive "/out" [Mem.record1]
        Mem.afterFirstRun
      = (Some (Mem.afterFirstRun, 0), ev)
      ∧ Forall (fun e => ¬ writesDestination e) ev.
Proof.
  assert (Hs : ∀ f, f ∈ [Mem.record1] →
    settled (RT := Mem.runtime false) Mem.archive "/out" Mem.afterFirstRun f).
  { intros f Hf. apply list_elem_of_singleton in Hf as ->.
    right; right. vm_compute. discriminate. }
  split; [exact Hs|].
  exact (X12_nothing_to_do_is_a_noop (RT := Mem.runtime false) Mem.archive
           "/out" [Mem.record1] Mem.afterFirstRun Hs).
Defined.

Lemma X13_witness :
  copyFiles (RT := Mem.runtime false) Mem.archive "/out" [Mem.record1]
    ({["/out/keep.txt" := Some (Mem.Payload "kept")]} : Mem.World)
  = (Some (<["/out/keep.txt" := Some (Mem.Payload "kept")]> Mem.afterFirstRun, 1),
     Mem.firstRunEvents)
  ∧ os_Stat (<["/out/keep.txt" := Some (Mem.Payload "kept")]> Mem.afterFirstRun)
      "/out/keep.txt" ≠ StatNotExist.
Proof.
  assert (Hrun : copyFiles (RT := Mem.runtime false) Mem.archive "/out"
      [Mem.record1] ({["/out/keep.txt" := Some (Mem.Payload "kept")]} : Mem.World)
    = (Some (<["/out/keep.txt" := Some (Mem.Payload "kept")]> Mem.afterFirstRun, 1),
       Mem.firstRunEvents)) by (vm_compute; reflexivity).
  split; [exact Hrun|].
  apply (X13_a_run_removes_nothing (RT := Mem.runtime false) Mem.archive "/out"
           [Mem.record1] _ _ _ _ "/out/keep.txt" Hrun).
  vm_compute. discriminate.
Defined.

(** ** Source selection *)

Lemma substring_chars (s : string) (n k : nat) :
  list_ascii_of_string (substring n k s)
  = take k (drop n (list_ascii_of_string s)).
Proof.
  revert n k. induction s as [|c r IH]; intros n k.
  - destruct n, k; simpl; by rewrite ?drop_nil, ?take_nil.
  - destruct n as [|n]; simpl.
    + destruct k as [|k]; simpl; [done|]. by rewrite IH.
    + apply IH.
Qed.

Lemma hasSuffix_spec (s suffix : string) :
  hasSuffix s suffix = true ↔ ∃ stem, s = stem +:+ suffix.
Proof.
  unfold hasSuffix.
  rewrite andb_true_iff, bool_decide_eq_true, String.eqb_eq. split.
  - intros [Hle E].
    exists (string_of_list_ascii
              (take (String.length s - String.length suffix)
                 (list_ascii_of_string s))).
    apply string_eq_chars.
    rewrite list_ascii_of_string_app, list_ascii_of_string_of_list_ascii.
    pose proof (f_equal list_ascii_of_string E) as E'.
    rewrite substring_chars in E'.
    rewrite take_ge in E' by (rewrite length_drop, <- string_length_chars; lia).
    rewrite <- E'. by rewrite take_drop.
  - intros [stem ->].
    assert (Hlen : String.length (stem +:+ suffix)
                   = String.length stem + String.length suffix).
    { by rewrite !string_length_chars, list_ascii_of_string_app, length_app. }
    split; [lia|]. apply string_eq_chars.
    rewrite substring_chars, list_ascii_of_string_app, Hlen.
    replace (String.length stem + String.length suffix - String.length suffix)
      with (length (list_ascii_of_string stem))
      by (rewrite <- string_length_chars; lia).
    rewrite drop_app_length. apply take_ge.
    by rewrite <- string_length_chars.
Qed.

Lemma errors_Join_nil (errs : list (option error)) :
  errors_Join errs = None ↔ Forall (fun e => e = None) errs.
Proof.
  unfold errors_Join, error in *.
  destruct (omap id errs) as [|m l] eqn:E; split; try done.
  - intros _. apply Forall_forall. intros [e|] Hin; [|done].
    assert (He : e ∈ omap id errs)
      by (apply list_elem_of_omap; by exists (Some e)).
    rewrite E in He. by apply not_elem_of_nil in He.
  - intros HF.
    assert (Hm : m ∈ omap id errs) by (rewrite E; left).
    apply list_elem_of_omap in Hm as (o & Hin & Ho).
    rewrite Forall_forall in HF. apply HF in Hin. by subst.
Qed.

Section Source.

Context {Handle : Type} {RT : Runtime Handle}
  {OsFile GzReader : Type} {HOST : Host Handle OsFile GzReader}.

(** The releases in the events of [targzFS], by how far it got. *)
Lemma targzFS_closes zipPath :
  filter isClose (targzFS zipPath).2
  = match host_Open zipPath with
    | Err _ => []
    | Ok file =>
        match gzip_NewReader file with
        | Err _ => [FileClose zipPath]
        | Ok gzReader =>
            match tarfs_New gzReader with
            | Err _ => [GzClose zipPath; FileClose zipPath]
            | Ok _ => []
            end
        end
    end.
Proof.
  unfold targzFS.
  destruct (host_Open zipPath) as [file|]; [|done].
  destruct (gzip_NewReader file) as [gzReader|]; [|done].
  destruct (tarfs_New gzReader) as [tarFs|]; done.
Qed.

(** X14: [getSource] looks at the kind of the path first and at its name
    second.  A directory is served by [os.DirFS] with a nil close function
    after the single [os.Stat], whatever its name; otherwise the path is
    opened, as an archive, exactly when it ends in [.mbz]; and the call
    succeeds exactly for a directory and for such a file that [targzFS]
    accepts. *)
Theorem X14_getSource_selects_by_kind_then_suffix :
  ∀ sourcePath : string,
    (hasSuffix sourcePath ".mbz" = true ↔ ∃ stem, sourcePath = stem +:+ ".mbz")
    ∧ (host_Stat sourcePath = Ok true →
       getSource sourcePath
       = (Ok (os_DirFS sourcePath, None), [HostStat sourcePath]))
    ∧ (HostOpen sourcePath ∈ (getSource sourcePath).2
       ↔ host_Stat sourcePath = Ok false ∧ hasSuffix sourcePath ".mbz" = true)
    ∧ ((∃ r, (getSource sourcePath).1 = Ok r)
       ↔ host_Stat sourcePath = Ok true
         ∨ (host_Stat sourcePath = Ok false
            ∧ hasSuffix sourcePath ".mbz" = true
            ∧ ∃ r, (targzFS sourcePath).1 = Ok r)).
Proof.
  intros sourcePath. split; [apply hasSuffix_spec|].
  split; [intros Hs; unfold getSource; by rewrite Hs|].
  unfold getSource.
  destruct (host_Stat sourcePath) as [[|]|err] eqn:Hs; simpl.
  - split.
    + rewrite list_elem_of_singleton. split; [done|]. by intros [? _].
    + split; [by left|]. intros _. by eexists.
  - destruct (hasSuffix sourcePath ".mbz") eqn:Hsuf; simpl.
    + split.
      * split; [done|]. intros _. unfold targzFS.
        destruct (host_Open sourcePath) as [file|]; [|right; left].
        destruct (gzip_NewReader file) as [gzReader|]; [|right; left].
        destruct (tarfs_New gzReader); right; left.
      * destruct (targzFS sourcePath) as [[[tarFs close]|err] ev]; simpl.
        -- split; [|by eexists]. intros _. right. repeat split. by eexists.
        -- split; [by intros [? ?]|].
           intros [?|(_ & _ & [? ?])]; done.
    + split.
      * rewrite list_elem_of_singleton. split; [done|]. by intros [_ ?].
      * simpl. split; [by intros [? ?]|]. intros [?|(_ & ? & _)]; done.
  - split.
    + rewrite list_elem_of_singleton. split; [done|]. by intros [? _].
    + split; [by intros [? ?]|]. intros [?|(? & _)]; done.
Qed.

(** X15: [targzFS] releases what it acquired when it fails, in the reverse
    order of acquisition and nothing else: nothing when the file does not
    open, the file when it is no gzip stream, the gzip reader and then the
    file when the stream is no tar archive.  When it succeeds it releases
    nothing itself and returns a close function that closes the gzip
    reader and then the file and returns nil exactly when both do. *)
Theorem X15_targzFS_releases_what_it_acquired :
  ∀ zipPath : string,
    match targzFS zipPath with
    | (Err _, ev) =>
        filter isClose ev
        = match host_Open zipPath with
          | Err _ => []
          | Ok file =>
              match gzip_NewReader file with
              | Err _ => [FileClose zipPath]
              | Ok _ => [GzClose zipPath; FileClose zipPath]
              end
          end
    | (Ok (_, close), ev) =>
        filter isClose ev = []
        ∧ close.1 = [GzClose zipPath; FileClose zipPath]
        ∧ ∃ file gzReader,
            host_Open zipPath = Ok file
            ∧ gzip_NewReader file = Ok gzReader
            ∧ (close.2 = None
               ↔ gz_Close gzReader = None ∧ file_Close file = None)
    end.
Proof.
  intros zipPath. unfold targzFS.
  destruct (host_Open zipPath) as [file|] eqn:Ho; [|reflexivity].
  destruct (gzip_NewReader file) as [gzReader|] eqn:Hg; [|reflexivity].
  destruct (tarfs_New gzReader) as [tarFs|]; [|reflexivity].
  split; [reflexivity|]. split; [done|]. exists file, gzReader.
  split; [done|]. split; [done|]. simpl.
  rewrite errors_Join_nil, !Forall_cons. naive_solver.
Qed.

End Source.

(** ** The program as a whole *)

Section Main.

Context {Handle : Type} {RT : Runtime Handle}
  {OsFile GzReader : Type} {HOST : Host Handle OsFile GzReader}
  {World : Type} {OSI : OS Handle World}.

Implicit Types (w : World) (args : list string) (ev : list Event)
  (range : gmap string File → list File).

Lemma getArguments_Some args sourcePath dest (ev0 : list HostEvent) :
  getArguments args = (Some (sourcePath, dest), ev0) →
  args = [sourcePath; dest] ∧ ev0 = [].
Proof.
  unfold getArguments. destruct (decide (length args ≠ 2)) as [|Hl]; [done|].
  destruct args as [|a [|b [|c rest]]]; simpl in *; try lia.
  intros H. by simplify_eq.
Qed.

Lemma getArguments_None args (ev0 : list HostEvent) :
  getArguments args = (None, ev0) →
  length args ≠ 2 ∧ ev0 = usage ++ [Exit 1].
Proof.
  unfold getArguments. destruct (decide (length args ≠ 2)); [|done].
  intros H. by simplify_eq.
Qed.

Lemma getArguments_pair sourcePath dest :
  getArguments [sourcePath; dest] = (Some (sourcePath, dest), []).
Proof. done. Qed.

Lemma filter_isClose_Core ev : filter isClose (Core <$> ev) = [].
Proof.
  induction ev as [|e ev IH]; [done|].
  rewrite fmap_cons, filter_cons_False by (simpl; tauto). exact IH.
Qed.

Lemma Forall_not_writes_Core ev :
  Forall (fun e => ¬ writesDestination e) ev →
  Forall (fun e => ¬ writesHost e) (Core <$> ev).
Proof. intros HF. apply Forall_fmap. exact HF. Qed.

Lemma getSource_events_host sourcePath :
  Forall (fun e => ¬ writesHost e) (getSource sourcePath).2.
Proof.
  unfold getSource, targzFS.
  destruct (host_Stat sourcePath) as [[|]|]; simpl;
    [repeat constructor; simpl; tauto| |repeat constructor; simpl; tauto].
  destruct (hasSuffix sourcePath ".mbz"); simpl;
    [|repeat constructor; simpl; tauto].
  destruct (host_Open sourcePath) as [file|];
    [|repeat constructor; simpl; tauto].
  destruct (gzip_NewReader file) as [gzReader|];
    [|repeat constructor; simpl; tauto].
  destruct (tarfs_New gzReader); repeat constructor; simpl; tauto.
Qed.

Lemma getSource_Ok sourcePath source close (ev1 : list HostEvent) :
  getSource sourcePath = (Ok (source, close), ev1) →
  filter isClose ev1 = []
  ∧ (host_Stat sourcePath = Ok true → close = None)
  ∧ (host_Stat sourcePath = Ok false →
     ∃ c, close = Some c ∧ c.1 = [GzClose sourcePath; FileClose sourcePath]).
Proof.
  unfold getSource, targzFS, dirFS.
  destruct (host_Stat sourcePath) as [[|]|]; [| |done].
  - intros H. simplify_eq. by repeat split.
  - destruct (hasSuffix sourcePath ".mbz"); [|done].
    destruct (host_Open sourcePath) as [file|]; [|done].
    destruct (gzip_NewReader file) as [gzReader|]; [|done].
    destruct (tarfs_New gzReader); [|done].
    intros H. simplify_eq. split; [reflexivity|]. split; [done|].
    intros _. by eexists.
Qed.

Lemma buildFileMapping_events_read (source : FS Handle) path :
  Forall (fun e => ¬ writesDestination e) (buildFileMapping source path).2.
Proof.
  unfold buildFileMapping.
  destruct (Open source path) as [h|]; [|repeat constructor; simpl; tauto].
  destruct (parseFilesXML h) as [files|]; [|repeat constructor; simpl; tauto].
  destruct (forEach addFile files ∅) as [m ev] eqn:E. simpl.
  constructor; [simpl; tauto|].
  replace ev with (forEach addFile files ∅).2 by (by rewrite E).
  rewrite forEach_addFile_events. destruct debug; [|constructor].
  apply Forall_fmap, Forall_forall. intros f _. simpl. tauto.
Qed.

Lemma forEach_events_invariant {S A} (P : Event → Prop)
    (body : S → A → S * list Event) l s :
  (∀ s' x, Forall P (body s' x).2) → Forall P (forEach body l s).2.
Proof.
  intros Hb. revert s. induction l as [|x rest IH]; intros s; [constructor|].
  rewrite forEach_cons_snd. apply Forall_app. split; [apply Hb|apply IH].
Qed.

Lemma processActivitiesFolder_events_read (source : FS Handle) activitiesFolder m :
  Forall (fun e => ¬ writesDestination e)
    (processActivitiesFolder source activitiesFolder m).2.
Proof.
  unfold processActivitiesFolder.
  destruct (ReadDir source activitiesFolder) as [dirs|];
    [|repeat constructor; simpl; tauto].
  destruct (forEach _ dirs m) as [m' ev] eqn:E. simpl.
  constructor; [simpl; tauto|].
  replace ev with (forEach (processDir source activitiesFolder) dirs m).2
    by (by rewrite E).
  apply forEach_events_invariant. intros m1 d.
  unfold processDir. repeat case_match; simplify_eq; simpl;
    repeat constructor; simpl; try tauto.
  match goal with
  | H : forEach (assignFolder ?n) ?l ?m0 = (_, ?e) |- _ =>
      replace e with (forEach (assignFolder n) l m0).2 by (by rewrite H)
  end.
  apply forEach_events_invariant. intros m2 id.
  unfold assignFolder, logDebug.
  repeat case_match; simpl; repeat constructor; simpl; tauto.
Qed.

(** Split a run of [main] into its six ways to end, with the equations of
    the stages that were reached. *)
Ltac main_cases args range w :=
  unfold main;
  destruct (getArguments args) as [[[?sourcePath ?dest]|] ?ev0] eqn:?Ha;
  [ destruct (getSource sourcePath) as [[[?source ?close]|?err] ?ev1] eqn:?Hs;
    [ destruct (buildFileMapping source "files.xml") as [[?m|?err] ?ev2] eqn:?Hb;
      [ destruct (processActivitiesFolder source "activities" m)
          as [[?m' [?err|]] ?ev3] eqn:?Hp;
        [ | destruct (copyFiles source dest (range m') w)
              as [[[?w' ?n]|] ?ev4] eqn:?Hc ]
      | ]
    | ]
  | ].

Lemma copyFiles_never_panics (source : FS Handle) dest order w ev :
  copyFiles source dest order w = (None, ev) → False.
Proof.
  intros H. destruct (copyLoop_total source dest order w 0) as (w' & n' & Ht).
  unfold copyFiles in H. rewrite H in Ht. done.
Qed.


Lemma last_app_two {A} (l : list A) a b : last (l ++ [a; b]) = Some b.
Proof. change [a; b] with ([a] ++ [b]). by rewrite app_assoc, last_snoc. Qed.

(** X17: a run that ends with status 1 has not touched the destination: its
    state is as before, no call that writes was made, and the last thing
    that happened is [os.Exit(1)]. *)
Theorem X17_fatal_error_leaves_destination_untouched :
  ∀ (args : list string) (range : gmap string File → list File) (w : World),
    (main args range w).1.1 = 1 →
    (main args range w).1.2 = w
    ∧ Forall (fun e => ¬ writesHost e) (main args range w).2
    ∧ last (main args range w).2 = Some (Exit 1).
Proof.
  intros args range w. main_cases args range w; simpl; intros Hcode;
    try done.
  - split; [done|]. split; [|by rewrite !app_assoc, last_app_two].
    apply getArguments_Some in Ha as [_ ->].
    pose proof (getSource_events_host sourcePath) as H1. rewrite Hs in H1.
    pose proof (buildFileMapping_events_read source "files.xml") as H2.
    rewrite Hb in H2.
    pose proof (processActivitiesFolder_events_read source "activities" m) as H3.
    rewrite Hp in H3. simpl in *.
    repeat (apply Forall_app; split); try done;
      try (by apply Forall_not_writes_Core).
    repeat constructor; simpl; tauto.
  - split; [done|]. split; [|by rewrite !app_assoc, last_app_two].
    apply getArguments_Some in Ha as [_ ->].
    pose proof (getSource_events_host sourcePath) as H1. rewrite Hs in H1.
    pose proof (buildFileMapping_events_read source "files.xml") as H2.
    rewrite Hb in H2. simpl in *.
    repeat (apply Forall_app; split); try done;
      try (by apply Forall_not_writes_Core).
    repeat constructor; simpl; tauto.
  - split; [done|]. split; [|by rewrite !app_assoc, last_app_two].
    apply getArguments_Some in Ha as [_ ->].
    pose proof (getSource_events_host sourcePath) as H1. rewrite Hs in H1.
    simpl in *.
    repeat (apply Forall_app; split); try done.
    repeat constructor; simpl; tauto.
  - split; [done|]. apply getArguments_None in Ha as [_ ->].
    split; [|by rewrite last_snoc].
    unfold usage. repeat constructor; simpl; tauto.
Qed.

Lemma deferredClose_events sourcePath (source : FS Handle) close
    (ev1 : list HostEvent) :
  getSource sourcePath = (Ok (source, close), ev1) →
  Forall (fun e => ¬ writesHost e) (deferredClose close)
  ∧ filter isClose (deferredClose close)
    = match close with
      | Some _ => [GzClose sourcePath; FileClose sourcePath]
      | None => []
      end.
Proof.
  unfold getSource, targzFS, dirFS.
  destruct (host_Stat sourcePath) as [[|]|]; [| |done].
  - intros H. simplify_eq. by split.
  - destruct (hasSuffix sourcePath ".mbz"); [|done].
    destruct (host_Open sourcePath) as [file|]; [|done].
    destruct (gzip_NewReader file) as [gzReader|]; [|done].
    destruct (tarfs_New gzReader); [|done].
    intros H. simplify_eq. unfold deferredClose.
    destruct (errors_Join _); split;
      (reflexivity || (repeat constructor; simpl; tauto)).
Qed.

Lemma summary_quiet n dest :
  ¬ writesHost (summary n dest) ∧ ¬ isClose (summary n dest).
Proof. unfold summary. destruct (decide (n = 0)); simpl; tauto. Qed.





(** X19: the deferred close of [main] runs only when [main] returns.  A run
    on an archive that ends with status 0 closes the gzip reader and then
    the file, once each; a run on a directory closes nothing; and a run
    that opened its source and then ends with status 1, because files.xml
    or the activities folder is unreadable, leaves through [os.Exit]
    without closing anything. *)
Theorem X19_source_is_closed_only_on_return :
  ∀ (sourcePath dest : string) (range : gmap string File → list File)
    (w : World) (source : FS Handle) (close : option closefn)
    (ev1 : list HostEvent),
    getSource sourcePath = (Ok (source, close), ev1) →
    filter isClose (main [sourcePath; dest] range w).2
    = if decide ((main [sourcePath; dest] range w).1.1 = 0)
      then match host_Stat sourcePath with
           | Ok false => [GzClose sourcePath; FileClose sourcePath]
           | _ => []
           end
      else [].
Proof.
  intros sourcePath dest range w source close ev1 Hs.
  destruct (getSource_Ok _ _ _ _ Hs) as (Hc1 & Hdir & Harch).
  destruct (deferredClose_events _ _ _ _ Hs) as [_ Hdef].
  unfold main. rewrite getArguments_pair, Hs.
  destruct (buildFileMapping source "files.xml") as [[m|err] ev2].
  - destruct (processActivitiesFolder source "activities" m)
      as [[m' [err|]] ev3].
    + simpl. rewrite !filter_app, Hc1, !filter_isClose_Core. reflexivity.
    + destruct (copyFiles source dest (range m') w) as [[[w' n]|] ev4] eqn:Hc;
        [|by apply copyFiles_never_panics in Hc].
      simpl. rewrite !filter_app, Hc1, !filter_isClose_Core.
      rewrite filter_cons_False by apply summary_quiet. rewrite Hdef. simpl.
      destruct (host_Stat sourcePath) as [[|]|] eqn:Hst.
      * by rewrite Hdir.
      * by destruct Harch as (c & -> & _).
      * unfold getSource in Hs. by rewrite Hst in Hs.
  - simpl. rewrite !filter_app, Hc1, !filter_isClose_Core. reflexivity.
Qed.

End Main.

Section CommandLineStatus.

Context {Handle : Type} {RT : Runtime Handle}
  {OsFile GzReader : Type} {HOST : Host Handle OsFile GzReader}
  {World : Type} {OSI : OS Handle World} {PFLAG : Pflag}.


End CommandLineStatus.

Lemma X17_witness :
  (main (RT := Mem.runtime false) ["empty.mbz"; "/out"] MemHost.range
     (∅ : Mem.World)).1.1 = 1
  ∧ (main (RT := Mem.runtime false) ["empty.mbz"; "/out"] MemHost.range
       (∅ : Mem.World)).1.2 = ∅
  ∧ last (main (RT := Mem.runtime false) ["empty.mbz"; "/out"] MemHost.range
            (∅ : Mem.World)).2 = Some (Exit 1).
Proof.
  assert (H : (main (RT := Mem.runtime false) ["empty.mbz"; "/out"]
                 MemHost.range (∅ : Mem.World)).1.1 = 1)
    by (vm_compute; reflexivity).
  split; [exact H|].
  destruct (X17_fatal_error_leaves_destination_untouched
              (RT := Mem.runtime false) ["empty.mbz"; "/out"] MemHost.range
              (∅ : Mem.World) H) as (Hw & _ & Hl).
  split; [exact Hw | exact Hl].
Defined.


Lemma X19_witness :
  getSource (HOST := MemHost.sample) "backup.mbz"
  = (Ok (Mem.archive,
         Some ([GzClose "backup.mbz"; FileClose "backup.mbz"], None)),
     [HostStat "backup.mbz"; HostOpen "backup.mbz";
      GzipNewReader "backup.mbz"; TarfsNew "backup.mbz"])
  ∧ filter isClose
      (main (RT := Mem.runtime false) ["backup.mbz"; "/out"] MemHost.range
         (∅ : Mem.World)).2
    = [GzClose "backup.mbz"; FileClose "backup.mbz"].
Proof.
  assert (Hs : getSource (HOST := MemHost.sample) "backup.mbz"
    = (Ok (Mem.archive,
           Some ([GzClose "backup.mbz"; FileClose "backup.mbz"], None)),
       [HostStat "backup.mbz"; HostOpen "backup.mbz";
        GzipNewReader "backup.mbz"; TarfsNew "backup.mbz"]))
    by (vm_compute; reflexivity).
  split; [exact Hs|].
  rewrite (X19_source_is_closed_only_on_return (RT := Mem.runtime false)
             "backup.mbz" "/out" MemHost.range (∅ : Mem.World) _ _ _ Hs).
  vm_compute. reflexivity.
Defined.

(** The runs of the in-memory host: an archive, the same content extracted,
    an archive without files.xml, and a file that is no archive. *)
Example main_runs :
  (main (RT := Mem.runtime false) ["backup.mbz"; "/out"] MemHost.range
     (∅ : Mem.World)).1
  = (0, Mem.afterFirstRun)
  ∧ (main (RT := Mem.runtime false) ["extracted"; "/out"] MemHost.range
       (∅ : Mem.World)).1
    = (0, Mem.afterFirstRun)
  ∧ (main (RT := Mem.runtime false) ["backup.mbz"; "/out"] MemHost.range
       Mem.afterFirstRun).1
    = (0, Mem.afterFirstRun)
  ∧ filter isClose
      (main (RT := Mem.runtime false) ["empty.mbz"; "/out"] MemHost.range
         (∅ : Mem.World)).2
    = []
  ∧ (main (RT := Mem.runtime false) ["notes.txt"; "/out"] MemHost.range
       (∅ : Mem.World)).1
    = (1, ∅).
Proof. repeat split; vm_compute; reflexivity. Qed.
